(** * Payment collection worker: order numbering and payment confirmation

    A shallow embedding of the Cloudflare worker of this repository
    (the route handlers and helpers of [src/index.js]) together with the
    schema of its store, and the properties of the order-numbering and
    payment-confirmation sequence.

    Conventions of the embedding.
    - JavaScript values that reach the handlers come out of [request.json()]:
      the scalar JSON values and [undefined] for an absent field.  Numbers are
      the integer-valued ones, in the range where JavaScript arithmetic is
      exact; strings are sequences of UTF-8 bytes.
    - A request carries the object its body parses to; bodies that do not
      parse are outside the model.
    - An [async] function is a function from the world to a settled promise
      and the world it leaves; [await] turns a rejected promise into a throw.
    - The store (D1), the payment provider and the clock are collaborators:
      what they answer during one request is given by an [oracle].  The
      bindings are those of a configured deployment (the secret is set). *)

From Stdlib Require Import ZArith String Ascii List Bool Lia.
From stdpp Require Import gmap strings list fin_maps sorting.

Import ListNotations.
Local Open Scope string_scope.
Local Open Scope list_scope.
Local Open Scope Z_scope.

(** ** JavaScript values *)

Inductive jsval : Type :=
  | JUndefined
  | JNull
  | JBool (b : bool)
  | JNum (n : Z)
  | JStr (s : string).

#[global] Instance jsval_eq_dec : EqDecision jsval.
Proof. solve_decision. Defined.

(** [typeof v] *)
Definition typeof (v : jsval) : string :=
  match v with
  | JUndefined => "undefined"
  | JNull => "object"
  | JBool _ => "boolean"
  | JNum _ => "number"
  | JStr _ => "string"
  end.

(** [ToBoolean]: the values for which [!v] is false. *)
Definition truthy (v : jsval) : bool :=
  match v with
  | JUndefined | JNull => false
  | JBool b => b
  | JNum n => negb (n =? 0)
  | JStr s => negb (String.eqb s "")
  end.

(** [!v] *)
Definition js_not (v : jsval) : bool := negb (truthy v).

(** The digit alphabet of [Number.prototype.toString(radix)]. *)
Definition digit_alphabet : string := "0123456789abcdefghijklmnopqrstuvwxyz".

Definition digit_char (d : Z) : ascii :=
  match String.get (Z.to_nat d) digit_alphabet with
  | Some c => c
  | None => "?"%char
  end.

(** The digits of a non-negative integer, most significant first. *)
Fixpoint digits (fuel : nat) (radix n : Z) (acc : string) : string :=
  match fuel with
  | O => acc
  | S fuel' =>
      let acc' := String (digit_char (n mod radix)) acc in
      if n / radix =? 0 then acc' else digits fuel' radix (n / radix) acc'
  end.

(** [n.toString(radix)] for an integer [n]. *)
Definition number_toString (radix n : Z) : string :=
  if n <? 0
  then String "-" (digits (S (Z.to_nat (Z.log2 (- n)))) radix (- n) "")
  else digits (S (Z.to_nat (Z.log2 n))) radix n "".

(** [ToString], as applied by template literals and by [RegExp.test]. *)
Definition to_string (v : jsval) : string :=
  match v with
  | JUndefined => "undefined"
  | JNull => "null"
  | JBool true => "true"
  | JBool false => "false"
  | JNum n => number_toString 10 n
  | JStr s => s
  end.

(** [a === b] where [a] is a string. *)
Definition strict_eq_string (a : string) (b : jsval) : bool :=
  match b with
  | JStr s => String.eqb a s
  | _ => false
  end.

(** [s.padStart(width, "0")] *)
Fixpoint repeat_zero (k : nat) (s : string) : string :=
  match k with
  | O => s
  | S k' => String "0" (repeat_zero k' s)
  end.

Definition padStart0 (width : nat) (s : string) : string :=
  repeat_zero (width - String.length s) s.

(** [new TextEncoder().encode(s)]: the bytes of the text. *)
Definition encode (s : string) : list Z :=
  map (fun c => Z.of_N (N_of_ascii c)) (list_ascii_of_string s).

(** [/^\d{10}$/.test(v)]: exactly [k] decimal digits, then the end. *)
Definition is_digit (c : ascii) : bool :=
  let n := N_of_ascii c in ((48 <=? n) && (n <=? 57))%N.

Fixpoint digits_then_end (k : nat) (s : string) : bool :=
  match k, s with
  | O, EmptyString => true
  | S k', String c s' => is_digit c && digits_then_end k' s'
  | _, _ => false
  end.

Definition test_mobile (v : jsval) : bool := digits_then_end 10 (to_string v).

(** ** The platform's keyed hash

    [crypto.subtle.importKey("raw", key, {name: "HMAC", hash: "SHA-256"}, ...)]
    followed by [crypto.subtle.sign("HMAC", key, data)] is the Web Crypto
    primitive of the runtime, not code of the repository.  It is given here
    by its standard definition (SHA-256 of FIPS 180-4, HMAC of RFC 2104) over
    bytes as integers in [0, 256) and 32-bit words as integers in [0, 2^32). *)

Module Sha256.

Definition w32 (x : Z) : Z := x mod 2 ^ 32.
Definition add32 (x y : Z) : Z := w32 (x + y).
Definition rotr (n x : Z) : Z :=
  Z.lor (Z.shiftr x n) (w32 (Z.shiftl x (32 - n))).
Definition shr (n x : Z) : Z := Z.shiftr x n.
Definition not32 (x : Z) : Z := Z.lxor x 0xffffffff.

Definition Ch (x y z : Z) : Z := Z.lxor (Z.land x y) (Z.land (not32 x) z).
Definition Maj (x y z : Z) : Z :=
  Z.lxor (Z.lxor (Z.land x y) (Z.land x z)) (Z.land y z).
Definition Sigma0 (x : Z) : Z :=
  Z.lxor (Z.lxor (rotr 2 x) (rotr 13 x)) (rotr 22 x).
Definition Sigma1 (x : Z) : Z :=
  Z.lxor (Z.lxor (rotr 6 x) (rotr 11 x)) (rotr 25 x).
Definition sigma0 (x : Z) : Z :=
  Z.lxor (Z.lxor (rotr 7 x) (rotr 18 x)) (shr 3 x).
Definition sigma1 (x : Z) : Z :=
  Z.lxor (Z.lxor (rotr 17 x) (rotr 19 x)) (shr 10 x).

(** The constants: the first 32 bits of the fractional parts of the cube
    roots of the first 64 primes, and of the square roots of the first 8. *)
Definition is_prime (n : Z) : bool :=
  forallb (fun d => negb (n mod d =? 0)) (seqZ 2 (n - 2)).

Definition primes : list Z := List.filter is_prime (seqZ 2 310).

Definition cube_root (n : Z) : Z :=
  fold_left (fun r b => let r' := r + 2 ^ b in
                        if r' * r' * r' <=? n then r' else r)
            (rev (seqZ 0 40)) 0.

Definition K : list Z :=
  Eval vm_compute in map (fun p => cube_root (p * 2 ^ 96) mod 2 ^ 32) primes.

Definition H0 : list Z :=
  Eval vm_compute in map (fun p => Z.sqrt (p * 2 ^ 64) mod 2 ^ 32) (firstn 8 primes).

(** Big-endian bytes of a word, and back. *)
Definition word_bytes (x : Z) : list Z :=
  [ Z.shiftr x 24 mod 256; Z.shiftr x 16 mod 256;
    Z.shiftr x 8 mod 256; x mod 256 ].

Fixpoint bytes_words (bs : list Z) : list Z :=
  match bs with
  | b0 :: b1 :: b2 :: b3 :: rest =>
      (((b0 * 256 + b1) * 256 + b2) * 256 + b3) :: bytes_words rest
  | _ => []
  end.

(** The message, the bit [1], zeros up to 56 modulo 64, the bit length. *)
Definition pad (msg : list Z) : list Z :=
  let len := Z.of_nat (length msg) in
  let zeros := Z.to_nat ((55 - len) mod 64) in
  let bits := len * 8 in
  msg ++ [128] ++ repeat 0 zeros
      ++ word_bytes (Z.shiftr bits 32 mod 2 ^ 32) ++ word_bytes (bits mod 2 ^ 32).

Fixpoint blocks (fuel : nat) (ws : list Z) : list (list Z) :=
  match fuel, ws with
  | S fuel', _ :: _ => firstn 16 ws :: blocks fuel' (skipn 16 ws)
  | _, _ => []
  end.

(** One round: the working variables and the sliding window of the
    message schedule, whose head is the word of this round. *)
Definition round (st : list Z * list Z) (k : Z) : list Z * list Z :=
  match st with
  | ([a; b; c; d; e; f; g; h], win) =>
      let w := nth 0 win 0 in
      let t1 := add32 (add32 (add32 (add32 h (Sigma1 e)) (Ch e f g)) k) w in
      let t2 := add32 (Sigma0 a) (Maj a b c) in
      let next :=
        add32 (add32 (add32 (sigma1 (nth 14 win 0)) (nth 9 win 0))
                     (sigma0 (nth 1 win 0))) w in
      ([add32 t1 t2; a; b; c; add32 d t1; e; f; g], skipn 1 win ++ [next])
  | _ => st
  end.

Fixpoint zip_add (xs ys : list Z) : list Z :=
  match xs, ys with
  | x :: xs', y :: ys' => add32 x y :: zip_add xs' ys'
  | _, _ => []
  end.

Definition compress (h : list Z) (block : list Z) : list Z :=
  zip_add h (fst (fold_left round K (h, block))).

Definition sha256 (msg : list Z) : list Z :=
  let ws := bytes_words (pad msg) in
  flat_map word_bytes (fold_left compress (blocks (length ws) ws) H0).

Definition xor_pad (c : Z) (key : list Z) : list Z :=
  map (fun b => Z.lxor b c) key.

Definition hmac (key data : list Z) : list Z :=
  let key' := if (64 <? Z.of_nat (length key)) then sha256 key else key in
  let key0 := key' ++ repeat 0 (64 - length key') in
  sha256 (xor_pad 0x5c key0 ++ sha256 (xor_pad 0x36 key0 ++ data)).

End Sha256.

(** ** The store

    The schema (the table-definition script): a [payments] table and a
    [counter] table keyed
    by [id], initialised with the row [(1, 0)].  The columns [id] and
    [created_at] of [payments] are filled in by the store and are not bound
    by the worker. *)

Record payment : Type := {
  order_number : Z;
  pay_name : jsval;
  pay_mobile : jsval;
  pay_address : jsval;
  pay_amount : jsval;
  pay_razorpay_order_id : jsval;
  pay_razorpay_payment_id : jsval
}.

Record tables : Type := {
  counter : gmap Z Z;          (* id |-> total_orders *)
  payments : list payment      (* in insertion order *)
}.

(** The statements the worker sends to the store. *)
Inductive sql : Type :=
  | BEGIN_TRANSACTION
  | UPDATE_counter             (* UPDATE counter SET total_orders = total_orders + 1 WHERE id = 1 *)
  | SELECT_counter             (* SELECT total_orders FROM counter WHERE id = 1 *)
  | INSERT_payment (p : payment)
  | COMMIT
  | ROLLBACK.

(** The body of the request sent to the payment provider. *)
Record provider_order : Type := {
  auth_user : string;
  auth_password : string;
  po_amount : jsval;
  po_currency : string;
  po_receipt : string
}.

Inductive event : Type :=
  | Sql (s : sql)
  | ProviderCall (r : provider_order).

(** The world a request runs in: the tables, the restore point of the open
    transaction if there is one, and the log of what was sent to the
    collaborators. *)
Record world : Type := {
  store : tables;
  txn : option tables;
  trace : list event
}.

Definition initial_tables : tables :=
  {| counter := {[ 1 := 0 ]}; payments := [] |}.

Definition initial_world : world :=
  {| store := initial_tables; txn := None; trace := [] |}.

(** What the provider answers to an order creation. *)
Inductive provider_reply : Type :=
  | NetworkError (message : string)   (* [fetch] rejects *)
  | NotOk                             (* [res.ok] is false *)
  | BadBody (message : string)        (* [res.json()] rejects *)
  | Order (id : jsval).               (* [res.json()] is an order with this [id] *)

(** The behaviour of the collaborators during one request: for each
    statement, whether the store fails it (and with which message), the
    provider's answer, and [Date.now()]. *)
Record oracle : Type := {
  begin_fails : option string;
  update_fails : option string;
  select_fails : option string;
  insert_fails : option string;
  commit_fails : option string;
  rollback_fails : option string;
  provider : provider_reply;
  now : Z
}.

(** ** Control flow: throws, promises, [async] and [await] *)

Inductive completion (A : Type) : Type :=
  | Normal (a : A)
  | Throw (message : string).
Arguments Normal {A} a.
Arguments Throw {A} message.

Inductive promise (A : Type) : Type :=
  | Fulfilled (a : A)
  | Rejected (message : string).
Arguments Fulfilled {A} a.
Arguments Rejected {A} message.

(** A synchronous stretch of code, and the call of an [async] function. *)
Definition M (A : Type) : Type := world -> completion A * world.
Definition Async (A : Type) : Type := world -> promise A * world.

Definition ret {A} (a : A) : M A := fun w => (Normal a, w).
Definition throw {A} (message : string) : M A := fun w => (Throw message, w).

Definition bind {A B} (c : M A) (k : A -> M B) : M B :=
  fun w =>
    match c w with
    | (Normal a, w') => k a w'
    | (Throw e, w') => (Throw e, w')
    end.

Notation "'do' x <- c ; k" := (bind c (fun x => k))
  (at level 10, x name, c at level 100, k at level 200).

(** [try { body } catch (err) { handler }] *)
Definition try_catch {A} (body : M A) (handler : string -> M A) : M A :=
  fun w =>
    match body w with
    | (Normal a, w') => (Normal a, w')
    | (Throw e, w') => handler e w'
    end.

(** An [async] function whose body returns a plain value: a throw in the
    body rejects the promise of the call. *)
Definition async {A} (body : M A) : Async A :=
  fun w =>
    match body w with
    | (Normal a, w') => (Fulfilled a, w')
    | (Throw e, w') => (Rejected e, w')
    end.

(** An [async] function whose body returns a promise: the promise of the
    call takes the state of the returned one. *)
Definition async_returning {A} (body : M (promise A)) : Async A :=
  fun w =>
    match body w with
    | (Normal p, w') => (p, w')
    | (Throw e, w') => (Rejected e, w')
    end.

(** [f(...)]: the call of an async function never throws; it is a promise. *)
Definition call {A} (f : Async A) : M (promise A) :=
  fun w => let (p, w') := f w in (Normal p, w').

(** [await p] *)
Definition await_promise {A} (p : promise A) : M A :=
  match p with
  | Fulfilled a => ret a
  | Rejected e => throw e
  end.

(** [await f(...)] *)
Definition await {A} (f : Async A) : M A :=
  do p <- call f; await_promise p.

(** ** The store's statements *)

Definition log (e : event) : M unit :=
  fun w => (Normal tt,
            {| store := store w; txn := txn w; trace := trace w ++ [e] |}).

Definition statement {A} (s : sql) (fails : option string) (run : M A) : M A :=
  do _ <- log (Sql s);
  match fails with
  | Some message => throw message
  | None => run
  end.

(** [db.exec("BEGIN TRANSACTION")] *)
Definition exec_begin (o : oracle) : M unit :=
  statement BEGIN_TRANSACTION (begin_fails o)
    (fun w => (Normal tt,
               {| store := store w; txn := Some (store w); trace := trace w |})).

(** [db.prepare("UPDATE counter SET total_orders = total_orders + 1 WHERE id = 1").run()] *)
Definition run_update_counter (o : oracle) : M unit :=
  statement UPDATE_counter (update_fails o)
    (fun w => (Normal tt,
               {| store := {| counter := alter (fun total_orders => total_orders + 1) 1
                                               (counter (store w));
                              payments := payments (store w) |};
                  txn := txn w; trace := trace w |})).

(** [db.prepare("SELECT total_orders FROM counter WHERE id = 1").first()]:
    the row, or [null]. *)
Definition first_counter (o : oracle) : M (option Z) :=
  statement SELECT_counter (select_fails o)
    (fun w => (Normal (counter (store w) !! 1), w)).

(** [db.prepare("INSERT INTO payments (...) VALUES (?, ?, ?, ?, ?, ?, ?)").bind(...).run()] *)
Definition run_insert_payment (o : oracle) (p : payment) : M unit :=
  statement (INSERT_payment p) (insert_fails o)
    (fun w => (Normal tt,
               {| store := {| counter := counter (store w);
                              payments := payments (store w) ++ [p] |};
                  txn := txn w; trace := trace w |})).

(** [db.exec("COMMIT")] *)
Definition exec_commit (o : oracle) : M unit :=
  statement COMMIT (commit_fails o)
    (fun w => (Normal tt, {| store := store w; txn := None; trace := trace w |})).

(** [db.exec("ROLLBACK")]: back to the restore point. *)
Definition exec_rollback (o : oracle) : M unit :=
  statement ROLLBACK (rollback_fails o)
    (fun w =>
       match txn w with
       | Some saved =>
           (Normal tt, {| store := saved; txn := None; trace := trace w |})
       | None => (Throw "cannot rollback - no transaction is active", w)
       end).

(** ** Requests and responses *)

Record request : Type := {
  method : string;
  pathname : string;                 (* [new URL(request.url).pathname] *)
  parsed_body : gmap string jsval    (* the object [request.json()] resolves to *)
}.

(** Environment bindings ([env.DB] is the store of the world). *)
Record bindings : Type := {
  RZP_KEY_ID : string;
  RZP_SECRET : string
}.

Record response : Type := {
  status : Z;
  headers : list (string * string);
  body : option (list (string * jsval))   (* the object that is serialised *)
}.

Definition CORS_HEADERS : list (string * string) :=
  [ ("Access-Control-Allow-Origin", "*");
    ("Access-Control-Allow-Methods", "GET, POST, OPTIONS");
    ("Access-Control-Allow-Headers", "Content-Type") ].

Definition jsonResponse (data : list (string * jsval)) (status : Z) : response :=
  {| status := status;
     headers := ("Content-Type", "application/json") :: CORS_HEADERS;
     body := Some data |}.

(** [await request.json()] *)
Definition json (r : request) : Async (gmap string jsval) :=
  async (ret (parsed_body r)).

(** A destructured property: [undefined] when the key is absent. *)
Definition prop (o : gmap string jsval) (key : string) : jsval :=
  default JUndefined (o !! key).

(** [v < k] and [v * k] on a number (both are reached with numbers only). *)
Definition js_lt (v : jsval) (k : Z) : bool :=
  match v with
  | JNum n => n <? k
  | _ => false
  end.

Definition js_times (v : jsval) (k : Z) : jsval :=
  match v with
  | JNum n => JNum (n * k)
  | _ => JUndefined
  end.

(** ** Helpers *)

Record order_info : Type := { totalOrders : Z; nextAmount : Z }.

Definition getNextOrderInfo (db : oracle) : Async order_info :=
  async (
    do row <- first_counter db;
    let totalOrders := match row with Some total_orders => total_orders | None => 0 end in
    ret {| totalOrders := totalOrders; nextAmount := (totalOrders + 1) * 10 |}).

Record razorpay_order : Type := { order_id : jsval }.

Definition createRazorpayOrder (o : oracle) (amount : jsval) (env : bindings)
  : Async razorpay_order :=
  async (
    do _ <- log (ProviderCall
                   {| auth_user := RZP_KEY_ID env;
                      auth_password := RZP_SECRET env;
                      po_amount := js_times amount 100;   (* paise *)
                      po_currency := "INR";
                      po_receipt := "receipt_" +:+ number_toString 10 (now o) |});
    match provider o with
    | NetworkError message => throw message
    | NotOk => throw "Razorpay order creation failed"
    | BadBody message => throw message
    | Order id => ret {| order_id := id |}
    end).

(** The hex digits of the keyed hash of ["{orderId}|{paymentId}"]. *)
Definition computed_signature (orderId paymentId : jsval) (secret : string) : string :=
  let key := encode secret in
  let data := encode (to_string orderId +:+ "|" +:+ to_string paymentId) in
  let sig := Sha256.hmac key data in
  String.concat "" (map (fun b => padStart0 2 (number_toString 16 b)) sig).

Definition verifySignature (orderId paymentId signature : jsval) (secret : string)
  : Async bool :=
  async (
    let computed := computed_signature orderId paymentId secret in
    ret (strict_eq_string computed signature)).

(** ** Route handlers *)

Definition handleNextAmount (db : oracle) : Async response :=
  async (
    do info <- await (getNextOrderInfo db);
    ret (jsonResponse [("nextAmount", JNum (nextAmount info))] 200)).

Definition handleCreateOrder (o : oracle) (request : request) (env : bindings)
  : Async response :=
  async (
    do fields <- await (json request);
    let name := prop fields "name" in
    let mobile := prop fields "mobile" in
    let address := prop fields "address" in
    let amount := prop fields "amount" in
    if js_not name || js_not mobile || js_not address then
      ret (jsonResponse [("error", JStr "All fields are required")] 400)
    else if negb (test_mobile mobile) then
      ret (jsonResponse [("error", JStr "Invalid mobile number")] 400)
    else if js_not amount || negb (String.eqb (typeof amount) "number")
            || js_lt amount 10 then
      ret (jsonResponse
             [("error", JStr "Invalid amount. Minimum amount is ₹10")] 400)
    else
      do order <- await (createRazorpayOrder o amount env);
      ret (jsonResponse
             [("order_id", order_id order); ("amount", amount);
              ("key", JStr (RZP_KEY_ID env))] 200)).

Definition handleVerifyPayment (o : oracle) (request : request) (env : bindings)
  : Async response :=
  async (
    do fields <- await (json request);
    let razorpay_order_id := prop fields "razorpay_order_id" in
    let razorpay_payment_id := prop fields "razorpay_payment_id" in
    let razorpay_signature := prop fields "razorpay_signature" in
    let name := prop fields "name" in
    let mobile := prop fields "mobile" in
    let address := prop fields "address" in
    let amount := prop fields "amount" in
    (* Verify signature *)
    do isValid <- await (verifySignature razorpay_order_id razorpay_payment_id
                           razorpay_signature (RZP_SECRET env));
    if negb isValid then
      ret (jsonResponse [("error", JStr "Invalid payment signature")] 400)
    else
      (* Atomic counter increment + insert *)
      do _ <- exec_begin o;
      try_catch
        (do _ <- run_update_counter o;
         do counterRow <- first_counter o;
         do orderNumber <-
           match counterRow with
           | Some total_orders => ret total_orders
           | None => throw "Cannot read properties of null (reading 'total_orders')"
           end;
         do _ <- run_insert_payment o
                   {| order_number := orderNumber;
                      pay_name := name;
                      pay_mobile := mobile;
                      pay_address := address;
                      pay_amount := amount;
                      pay_razorpay_order_id := razorpay_order_id;
                      pay_razorpay_payment_id := razorpay_payment_id |};
         do _ <- exec_commit o;
         ret (jsonResponse
                [("status", JStr "success"); ("orderNumber", JNum orderNumber)] 200))
        (fun err =>
           do _ <- exec_rollback o;
           ret (jsonResponse [("error", JStr ("Database error: " +:+ err))] 500))).

(** ** Main entry *)

Definition fetch (o : oracle) (request : request) (env : bindings) : Async response :=
  async_returning (
    (* Handle CORS preflight *)
    if String.eqb (method request) "OPTIONS" then
      ret (Fulfilled {| status := 200; headers := CORS_HEADERS; body := None |})
    else
      try_catch
        (if String.eqb (pathname request) "/api/next-amount" then
           call (handleNextAmount o)
         else if String.eqb (pathname request) "/api/create-order" then
           call (handleCreateOrder o request env)
         else if String.eqb (pathname request) "/api/verify-payment" then
           call (handleVerifyPayment o request env)
         else
           ret (Fulfilled (jsonResponse [("error", JStr "Not found")] 404)))
        (fun err => ret (Fulfilled (jsonResponse [("error", JStr err)] 500)))).

(** ** Sequences of verification requests *)

(** One [verify-payment] request together with what the collaborators do
    while it is served. *)
Record verification : Type := {
  v_oracle : oracle;
  v_request : request
}.

(** Serve the requests one after the other. *)
Fixpoint serve (env : bindings) (calls : list verification) (w : world)
  : list (promise response) * world :=
  match calls with
  | [] => ([], w)
  | c :: rest =>
      let (p, w') := handleVerifyPayment (v_oracle c) (v_request c) env w in
      let (ps, w'') := serve env rest w' in
      (p :: ps, w'')
  end.

(** The request was answered with the success response. *)
Definition committed (p : promise response) : bool :=
  match p with
  | Fulfilled r => status r =? 200
  | Rejected _ => false
  end.

(** The number of requests that committed. *)
Fixpoint commits (ps : list (promise response)) : Z :=
  match ps with
  | [] => 0
  | p :: ps' => (if committed p then 1 else 0) + commits ps'
  end.

Definition order_numbers (t : tables) : list Z := map order_number (payments t).

Definition max_order_number (t : tables) : Z :=
  foldr Z.max 0 (order_numbers t).

(** ** The words of the specification *)

(** Lowercase hex encoding: two digits per byte. *)
Definition hex_digit (n : Z) : ascii :=
  match n with
  | 0 => "0" | 1 => "1" | 2 => "2" | 3 => "3" | 4 => "4" | 5 => "5"
  | 6 => "6" | 7 => "7" | 8 => "8" | 9 => "9" | 10 => "a" | 11 => "b"
  | 12 => "c" | 13 => "d" | 14 => "e" | _ => "f"
  end%char.

Fixpoint lowercase_hex (bs : list Z) : string :=
  match bs with
  | [] => ""
  | b :: bs' => String (hex_digit (b / 16)) (String (hex_digit (b mod 16)) (lowercase_hex bs'))
  end.

(** [hex(HMAC-SHA256(secret, orderId + "|" + paymentId))] *)
Definition expected_signature (orderId paymentId : jsval) (secret : string) : string :=
  lowercase_hex
    (Sha256.hmac (encode secret)
       (encode (to_string orderId +:+ "|" +:+ to_string paymentId))).

(** A field that is missing or empty. *)
Definition missing_or_empty (v : jsval) : Prop :=
  v = JUndefined \/ v = JNull \/ v = JStr "".

(** Exactly ten decimal digits. *)
Definition decimal_digit (c : ascii) : Prop :=
  (N_of_ascii "0" <= N_of_ascii c <= N_of_ascii "9")%N.

Definition ten_decimal_digits (s : string) : Prop :=
  String.length s = 10%nat /\ Forall decimal_digit (list_ascii_of_string s).

(** A number that is at least [k]. *)
Definition number_at_least (k : Z) (v : jsval) : Prop :=
  exists n, v = JNum n /\ k <= n.

(** The success response of verification. *)
Definition success_response (orderNumber : Z) : response :=
  jsonResponse [("status", JStr "success"); ("orderNumber", JNum orderNumber)] 200.

(** A store without faults, whose provider mints the order [id]. *)
Definition healthy (id : jsval) (now : Z) : oracle :=
  {| begin_fails := None; update_fails := None; select_fails := None;
     insert_fails := None; commit_fails := None; rollback_fails := None;
     provider := Order id; now := now |}.

(** Every statement of the verification transaction goes through. *)
Definition storage_succeeds (o : oracle) : Prop :=
  begin_fails o = None /\ update_fails o = None /\ select_fails o = None /\
  insert_fails o = None /\ commit_fails o = None.

(** The supplied signature is the expected one. *)
Definition signature_valid (request : request) (env : bindings) : Prop :=
  let fields := parsed_body request in
  prop fields "razorpay_signature"
  = JStr (expected_signature (prop fields "razorpay_order_id")
            (prop fields "razorpay_payment_id") (RZP_SECRET env)).

(** The payment record made of the supplied fields. *)
Definition payment_of (orderNumber : Z) (request : request) : payment :=
  let fields := parsed_body request in
  {| order_number := orderNumber;
     pay_name := prop fields "name";
     pay_mobile := prop fields "mobile";
     pay_address := prop fields "address";
     pay_amount := prop fields "amount";
     pay_razorpay_order_id := prop fields "razorpay_order_id";
     pay_razorpay_payment_id := prop fields "razorpay_payment_id" |}.

(** The error responses of verification. *)
Definition invalid_signature_response : response :=
  jsonResponse [("error", JStr "Invalid payment signature")] 400.

Definition storage_error_response (message : string) : response :=
  jsonResponse [("error", JStr ("Database error: " +:+ message))] 500.

(** The ledger after [M] commits: the counter row holds [M] and the records
    carry the order numbers 1, ..., [M], in this order. *)
Definition ledger (t : tables) (M : Z) : Prop :=
  counter t !! 1 = Some M /\ order_numbers t = seqZ 1 M.

(** The store keeps its transactional contract: a [ROLLBACK] is carried out. *)
Definition transactional (o : oracle) : Prop := rollback_fails o = None.

Definition rollback_goes_through (c : verification) : Prop :=
  transactional (v_oracle c).

(** ** Sample data *)

Definition sample_env : bindings :=
  {| RZP_KEY_ID := "rzp_test_key"; RZP_SECRET := "key" |}.

(** A [verify-payment] request for the order ["order_1"] and the payment
    ["pay_1"], from a payer whose mobile has five digits and who paid 5. *)
Definition sample_verification (signature : string) : request :=
  {| method := "POST";
     pathname := "/api/verify-payment";
     parsed_body :=
       list_to_map
         [ ("razorpay_order_id", JStr "order_1");
           ("razorpay_payment_id", JStr "pay_1");
           ("razorpay_signature", JStr signature);
           ("name", JStr "Asha");
           ("mobile", JStr "12345");
           ("address", JStr "12 Hill Road");
           ("amount", JNum 5) ] |}.

(** The HMAC-SHA-256 of ["order_1|pay_1"] under the key ["key"], in hex. *)
Definition good_signature : string :=
  "65219a93f3f6ab8a5f6962209ec83d04e29cd18b30fffd7e1a2aade3a72c199e".

(** The same with its last digit changed. *)
Definition tampered_signature : string :=
  "65219a93f3f6ab8a5f6962209ec83d04e29cd18b30fffd7e1a2aade3a72c199f".

(** A store that fails the [INSERT] and nothing else. *)
Definition insert_failing (message : string) : oracle :=
  {| begin_fails := None; update_fails := None; select_fails := None;
     insert_fails := Some message; commit_fails := None; rollback_fails := None;
     provider := NotOk; now := 0 |}.

(** A store without faults, whose provider refuses the order. *)
Definition provider_refusing (now : Z) : oracle :=
  {| begin_fails := None; update_fails := None; select_fails := None;
     insert_fails := None; commit_fails := None; rollback_fails := None;
     provider := NotOk; now := now |}.

Definition sample_order (name mobile address amount : jsval) : request :=
  {| method := "POST";
     pathname := "/api/create-order";
     parsed_body :=
       list_to_map
         [ ("name", name); ("mobile", mobile);
           ("address", address); ("amount", amount) ] |}.

Definition good_call : verification :=
  {| v_oracle := healthy JNull 0; v_request := sample_verification good_signature |}.

Definition tampered_call : verification :=
  {| v_oracle := healthy JNull 0; v_request := sample_verification tampered_signature |}.

Definition insert_failing_call : verification :=
  {| v_oracle := insert_failing "D1_ERROR: disk I/O error";
     v_request := sample_verification good_signature |}.

(** A commit, a tampered request, a failed insert, a commit. *)
Definition sample_calls : list verification :=
  [good_call; tampered_call; insert_failing_call; good_call].

(** A store whose counter table was never initialised. *)
Definition uninitialised_world : world :=
  {| store := {| counter := ∅; payments := [] |}; txn := None; trace := [] |}.

(** The scenario of the specification: a mobile of five digits. *)
Definition short_mobile_order : request :=
  sample_order (JStr "Asha") (JStr "12345") (JStr "12 Hill Road") (JNum 10).

(** A well-formed order. *)
Definition valid_order : request :=
  sample_order (JStr "Asha") (JStr "9876543210") (JStr "12 Hill Road") (JNum 10).

(** A store that fails the [INSERT] and then the [ROLLBACK]. *)
Definition rollback_failing : oracle :=
  {| begin_fails := None; update_fails := None; select_fails := None;
     insert_fails := Some "D1_ERROR: disk I/O error"; commit_fails := None;
     rollback_fails := Some "D1_ERROR: connection lost";
     provider := NotOk; now := 0 |}.

(** ** More sample data *)

(** A store with the given faults, in the order of the statements:
    [BEGIN], [UPDATE], [SELECT], [INSERT], [COMMIT], [ROLLBACK]. *)
Definition store_faults (b u s i c r : option string) : oracle :=
  {| begin_fails := b; update_fails := u; select_fails := s;
     insert_fails := i; commit_fails := c; rollback_fails := r;
     provider := NotOk; now := 0 |}.

(** A world whose counter table has no row. *)
Definition rowless_world : world :=
  {| store := {| counter := ∅; payments := [] |}; txn := None; trace := [] |}.

(** The records are numbered in strictly increasing order, with numbers
    between 1 and the value [T] of the counter row. *)
Definition increasing_below (t : tables) (T : Z) : Prop :=
  counter t !! 1 = Some T /\ 0 <= T /\
  StronglySorted Z.lt (order_numbers t) /\
  Forall (fun k => 1 <= k <= T) (order_numbers t).

(** The same request served [n] times by the same store. *)
Definition replayed (n : nat) (o : oracle) (request : request) : list verification :=
  replicate n {| v_oracle := o; v_request := request |}.

(** A lowercase hexadecimal digit. *)
Definition lowercase_hex_char (c : ascii) : Prop :=
  decimal_digit c \/ (N_of_ascii "a" <= N_of_ascii c <= N_of_ascii "f")%N.


(** The fields of an order pass the three tests of [create-order]. *)
Definition acceptable_order (request : request) : Prop :=
  let fields := parsed_body request in
  truthy (prop fields "name") = true /\
  truthy (prop fields "mobile") = true /\
  truthy (prop fields "address") = true /\
  ten_decimal_digits (to_string (prop fields "mobile")) /\
  number_at_least 10 (prop fields "amount").

(** What is sent to the provider for an amount, under given bindings. *)
Definition provider_order_for (amount : Z) (env : bindings) (now : Z) : provider_order :=
  {| auth_user := RZP_KEY_ID env;
     auth_password := RZP_SECRET env;
     po_amount := JNum (amount * 100);
     po_currency := "INR";
     po_receipt := "receipt_" +:+ number_toString 10 now |}.

(** A world with one more entry in its log. *)
Definition logged (w : world) (e : event) : world :=
  {| store := store w; txn := txn w; trace := trace w ++ [e] |}.

(** The same request sent with another method. *)
Definition with_method (m : string) (r : request) : request :=
  {| method := m; pathname := pathname r; parsed_body := parsed_body r |}.

(** The paths the worker routes. *)
Definition routed (path : string) : Prop :=
  path = "/api/next-amount" \/ path = "/api/create-order" \/
  path = "/api/verify-payment".

(** The store of the sample that fails the [INSERT]. *)
Definition insert_failing_oracle_sample : oracle :=
  insert_failing "D1_ERROR: disk I/O error".

(** ** The schema script

    The script creates the two tables when they do not exist yet and puts
    the row [(1, 0)] in the counter table unless a row with [id = 1] is
    there already.  A database is given by the rows of each table, if the
    table exists. *)

Record database : Type := {
  payments_table : option (list payment);
  counter_table : option (gmap Z Z)
}.

(** [CREATE TABLE IF NOT EXISTS] *)
Definition create_table_if_not_exists {A} (empty : A) (table : option A) : option A :=
  match table with
  | Some rows => Some rows
  | None => Some empty
  end.

(** [INSERT OR IGNORE INTO counter (id, total_orders) VALUES (id, total_orders)]:
    the primary key decides whether the row is ignored. *)
Definition insert_or_ignore (id total_orders : Z) (rows : gmap Z Z) : gmap Z Z :=
  match rows !! id with
  | Some _ => rows
  | None => <[id := total_orders]> rows
  end.

Definition schema (db : database) : database :=
  (* Payments table *)
  let payments := create_table_if_not_exists [] (payments_table db) in
  (* Atomic counter table *)
  let counter := create_table_if_not_exists ∅ (counter_table db) in
  (* Initialize counter *)
  {| payments_table := payments;
     counter_table := insert_or_ignore 1 0 <$> counter |}.

(** The tables the worker sees, once both exist. *)
Definition opened (db : database) : option tables :=
  match payments_table db, counter_table db with
  | Some p, Some c => Some {| counter := c; payments := p |}
  | _, _ => None
  end.

Definition empty_database : database :=
  {| payments_table := None; counter_table := None |}.

(** ** The development entry point

    The bundle that [wrangler dev] builds wraps the worker in a chain of
    middleware: [drainBody], then [jsonError], then the worker's [fetch].
    The thrown values of the model carry a message; their name and stack,
    which [reduceError] also reports, are given by [error_details].  The
    stream of the request body is not part of the world. *)

Definition handler : Type := request -> bindings -> Async response.
Definition middleware : Type := request -> bindings -> handler -> Async response.

(** [try { body } finally { cleanup }] *)
Definition try_finally {A} (body : M A) (cleanup : M unit) : M A :=
  fun w =>
    let (c, w1) := body w in
    match cleanup w1 with
    | (Normal _, w2) => (c, w2)
    | (Throw e, w2) => (Throw e, w2)
    end.

(** The [finally] of [drainBody]: it reads what is left of the body and
    catches (and logs) what that throws. *)
Definition drain_unused_body (request : request) : M unit := ret tt.

Definition drainBody : middleware :=
  fun request env next =>
    async (try_finally (await (next request env)) (drain_unused_body request)).

Record error_details : Type := {
  name_of : string -> jsval;
  stack_of : string -> jsval
}.

Definition reduceError (d : error_details) (e : string) : list (string * jsval) :=
  [ ("name", name_of d e); ("message", JStr e); ("stack", stack_of d e);
    ("cause", JUndefined) ].

(** [Response.json(data, { status, headers })] *)
Definition Response_json (data : list (string * jsval)) (status : Z)
    (headers : list (string * string)) : response :=
  {| status := status;
     headers := headers ++ [("Content-Type", "application/json")];
     body := Some data |}.

Definition jsonError (d : error_details) : middleware :=
  fun request env next =>
    async (try_catch (await (next request env))
             (fun e => ret (Response_json (reduceError d e) 500
                              [("MF-Experimental-Error-Stack", "true")]))).

(** [__facade_invokeChain__]: the head of the chain runs with the rest of the
    chain as its [next].  On an empty chain the head is [undefined] and
    calling it is a type error; [__facade_invoke__] never passes one. *)
Fixpoint facade_invokeChain (middlewareChain : list middleware) : handler :=
  match middlewareChain with
  | head :: tail => fun request env => head request env (facade_invokeChain tail)
  | [] => fun _ _ w => (Rejected "head is not a function", w)
  end.

(** [__facade_invoke__]: the registered middleware, then the final one. *)
Definition facade_invoke (registered : list middleware) (finalMiddleware : middleware)
  : handler :=
  facade_invokeChain (registered ++ [finalMiddleware]).

(** The worker of this repository exports a [fetch], so the dispatcher hands
    the request to it. *)
Definition fetchDispatcher (worker_fetch : handler) : middleware :=
  fun request env _ => worker_fetch request env.

(** [wrapExportedHandler]: the worker itself when there is no middleware. *)
Definition wrapExportedHandler (middlewares : list middleware) (worker_fetch : handler)
  : handler :=
  match middlewares with
  | [] => worker_fetch
  | _ => facade_invoke middlewares (fetchDispatcher worker_fetch)
  end.

(** [__INTERNAL_WRANGLER_MIDDLEWARE__] *)
Definition INTERNAL_WRANGLER_MIDDLEWARE (d : error_details) : list middleware :=
  [drainBody; jsonError d].

(** The default export of the bundle. *)
Definition WRAPPED_ENTRY (d : error_details) (o : oracle) : handler :=
  wrapExportedHandler (INTERNAL_WRANGLER_MIDDLEWARE d) (fetch o).

(** A middleware that hands the request on and returns what comes back. *)
Definition transparent (m : middleware) : Prop :=
  forall request env next w, m request env next w = next request env w.

Definition plain_errors : error_details :=
  {| name_of := fun _ => JStr "Error"; stack_of := fun _ => JUndefined |}.

(** ** The check of outbound URLs

    The bundle wraps the global [fetch]: every outbound request first goes
    through [checkURL], which warns, once per URL, about requests to a custom
    HTTPS port.  A URL is given by the parts the check reads; [port] is empty
    for the default port of the scheme. *)

Record url : Type := {
  protocol : string;
  port : string;
  href : string          (* [url.toString()] *)
}.

Definition custom_port_warning (u : url) : string :=
  "WARNING: known issue with `fetch()` requests to custom HTTPS ports in published Workers:
 - " +:+ href u +:+ " - the custom port will be ignored when the Worker is published using the `wrangler deploy` command.
".

(** [checkURL]: the set [urls] of the URLs already warned about, and the
    warnings written to the console. *)
Definition checkURL (u : url) (state : gset string * list string)
  : gset string * list string :=
  let (urls, console) := state in
  if negb (String.eqb (port u) "") && negb (String.eqb (port u) "443")
     && String.eqb (protocol u) "https:" then
    if decide (href u ∈ urls) then (urls, console)
    else ({[ href u ]} ∪ urls, console ++ [custom_port_warning u])
  else (urls, console).

(** The outbound requests of a run, checked one after the other. *)
Definition checkURLs (us : list url) (state : gset string * list string)
  : gset string * list string :=
  fold_left (fun st u => checkURL u st) us state.

(** The URL of the provider's order endpoint. *)
Definition razorpay_orders_url : url :=
  {| protocol := "https:"; port := ""; href := "https://api.razorpay.com/v1/orders" |}.

Definition custom_port_url : url :=
  {| protocol := "https:"; port := "8443"; href := "https://example.com:8443/" |}.

(** ** Proof tools *)

#[local] Instance signature_valid_dec (request : request) (env : bindings) :
  Decision (signature_valid request env).
Proof. unfold signature_valid. cbn zeta. apply _. Defined.

Ltac unfold_js :=
  unfold handleVerifyPayment, handleCreateOrder, handleNextAmount,
    getNextOrderInfo, createRazorpayOrder, verifySignature, json,
    exec_begin, run_update_counter, first_counter, run_insert_payment,
    exec_commit, exec_rollback, statement, log,
    async, async_returning, await, call, await_promise, try_catch,
    bind, ret, throw.

Ltac oracle_fields o :=
  destruct o as [fb fu fs fi fc fr pr nw];
  cbn [begin_fails update_fails select_fails insert_fails commit_fails
       rollback_fails provider now] in *.

(** * Properties *)

(** ** Signature check *)

Lemma hex_byte_table :
  forallb (fun b => String.eqb (padStart0 2 (number_toString 16 b))
                      (String (hex_digit (b / 16)) (String (hex_digit (b mod 16)) "")))
          (seqZ 0 256) = true.
Proof. vm_compute. reflexivity. Qed.

(** [b.toString(16).padStart(2, "0")] is the two-digit lowercase hex of a byte. *)
Lemma hex_byte (b : Z) :
  0 <= b < 256 ->
  padStart0 2 (number_toString 16 b)
  = String (hex_digit (b / 16)) (String (hex_digit (b mod 16)) "").
Proof.
  intros Hb.
  pose proof hex_byte_table as Htab.
  rewrite forallb_forall in Htab.
  apply String.eqb_eq, Htab.
  apply list_elem_of_In, elem_of_seqZ. lia.
Qed.

Lemma join_hex (bs : list Z) :
  Forall (fun b => 0 <= b < 256) bs ->
  String.concat "" (map (fun b => padStart0 2 (number_toString 16 b)) bs)
  = lowercase_hex bs.
Proof.
  induction 1 as [|b bs Hb Hbs IH]; [reflexivity|].
  cbn [map lowercase_hex]. rewrite <- IH, hex_byte by assumption.
  destruct bs as [|b' bs']; reflexivity.
Qed.

Lemma word_bytes_range (x : Z) :
  Forall (fun b => 0 <= b < 256) (Sha256.word_bytes x).
Proof.
  unfold Sha256.word_bytes.
  repeat constructor; apply Z.mod_pos_bound; lia.
Qed.

Lemma sha256_range (msg : list Z) :
  Forall (fun b => 0 <= b < 256) (Sha256.sha256 msg).
Proof.
  unfold Sha256.sha256.
  generalize (fold_left Sha256.compress
                (Sha256.blocks (length (Sha256.bytes_words (Sha256.pad msg)))
                   (Sha256.bytes_words (Sha256.pad msg))) Sha256.H0).
  intros ws. induction ws as [|x ws IH]; [constructor|].
  cbn [flat_map]. apply Forall_app. split; [apply word_bytes_range | exact IH].
Qed.

Lemma hmac_range (key data : list Z) :
  Forall (fun b => 0 <= b < 256) (Sha256.hmac key data).
Proof. unfold Sha256.hmac. apply sha256_range. Qed.

Lemma computed_signature_expected (orderId paymentId : jsval) (secret : string) :
  computed_signature orderId paymentId secret
  = expected_signature orderId paymentId secret.
Proof. apply join_hex, hmac_range. Qed.

Lemma strict_eq_string_spec (a : string) (v : jsval) :
  strict_eq_string a v = true <-> v = JStr a.
Proof.
  destruct v as [| |b|n|s]; cbn; try (split; [discriminate|congruence]).
  rewrite String.eqb_eq. split; congruence.
Qed.


(** ** The verification handler, case by case *)

Section Verification.

Context (o : oracle) (request : request) (env : bindings) (w : world).

Let fields := parsed_body request.

(** The test of the handler, in the words of the specification. *)
Lemma signature_check :
  strict_eq_string
    (computed_signature (prop fields "razorpay_order_id")
       (prop fields "razorpay_payment_id") (RZP_SECRET env))
    (prop fields "razorpay_signature") = true
  <-> signature_valid request env.
Proof.
  unfold signature_valid. cbn zeta.
  rewrite strict_eq_string_spec, computed_signature_expected. reflexivity.
Qed.

Lemma signature_check_false :
  ~ signature_valid request env ->
  strict_eq_string
    (computed_signature (prop fields "razorpay_order_id")
       (prop fields "razorpay_payment_id") (RZP_SECRET env))
    (prop fields "razorpay_signature") = false.
Proof.
  intros Hn. apply not_true_is_false.
  intros H. apply Hn, signature_check, H.
Qed.

(** Signature mismatch: nothing is sent to the store. *)
Lemma verify_invalid :
  ~ signature_valid request env ->
  handleVerifyPayment o request env w = (Fulfilled invalid_signature_response, w).
Proof.
  intros Hn. apply signature_check_false in Hn. unfold fields in Hn.
  unfold_js. cbn beta iota zeta. rewrite Hn. reflexivity.
Qed.

(** [BEGIN TRANSACTION] fails: the error leaves the handler. *)
Lemma verify_begin_fails (message : string) :
  signature_valid request env ->
  begin_fails o = Some message ->
  handleVerifyPayment o request env w
  = (Rejected message,
     {| store := store w; txn := txn w;
        trace := trace w ++ [Sql BEGIN_TRANSACTION] |}).
Proof.
  intros Hv Hb. apply signature_check in Hv. unfold fields in Hv.
  unfold_js. cbn beta iota zeta. rewrite Hv, Hb. reflexivity.
Qed.

(** Every statement goes through and the counter row exists: commit. *)
Lemma verify_commit (T : Z) :
  signature_valid request env ->
  storage_succeeds o ->
  counter (store w) !! 1 = Some T ->
  handleVerifyPayment o request env w
  = (Fulfilled (success_response (T + 1)),
     {| store := {| counter := alter (fun t => t + 1) 1 (counter (store w));
                    payments := payments (store w) ++ [payment_of (T + 1) request] |};
        txn := None;
        trace := trace w ++ [Sql BEGIN_TRANSACTION; Sql UPDATE_counter;
                             Sql SELECT_counter;
                             Sql (INSERT_payment (payment_of (T + 1) request));
                             Sql COMMIT] |}).
Proof.
  intros Hv (Hb & Hu & Hs & Hi & Hc) HT.
  apply signature_check in Hv. unfold fields in Hv.
  unfold_js. cbn beta iota zeta. rewrite Hv, Hb, Hu, Hs, Hi, Hc.
  cbn. rewrite lookup_alter_eq, HT. cbn.
  rewrite <- !app_assoc. reflexivity.
Qed.

(** A statement of the open transaction fails (or the counter row is
    absent) and [ROLLBACK] goes through: the tables are those before. *)
Lemma verify_rollback :
  signature_valid request env ->
  begin_fails o = None ->
  rollback_fails o = None ->
  update_fails o <> None \/ select_fails o <> None \/
  counter (store w) !! 1 = None \/
  insert_fails o <> None \/ commit_fails o <> None ->
  exists message,
    fst (handleVerifyPayment o request env w)
    = Fulfilled (storage_error_response message) /\
    store (snd (handleVerifyPayment o request env w)) = store w /\
    txn (snd (handleVerifyPayment o request env w)) = None.
Proof.
  intros Hv Hb Hr Hfail. apply signature_check in Hv. unfold fields in Hv.
  unfold_js. cbn beta iota zeta. rewrite Hv.
  clear fields Hv. oracle_fields o. subst fb fr.
  destruct fu as [mu|]; cbn; [exists mu; auto|].
  destruct fs as [ms|]; cbn; [exists ms; auto|].
  rewrite lookup_alter_eq.
  destruct (counter (store w) !! 1) as [T|] eqn:HT; cbn;
    [|eexists; split; [reflexivity|auto]].
  destruct fi as [mi|]; cbn; [exists mi; auto|].
  destruct fc as [mc|]; cbn; [exists mc; auto|].
  exfalso. destruct Hfail as [H|[H|[H|[H|H]]]]; congruence.
Qed.

(** With the expected signature the answer is never the signature error. *)
Lemma verify_valid_not_signature_error :
  signature_valid request env ->
  fst (handleVerifyPayment o request env w) <> Fulfilled invalid_signature_response.
Proof.
  intros Hv. apply signature_check in Hv. unfold fields in Hv.
  unfold_js. cbn beta iota zeta. rewrite Hv.
  clear fields Hv. oracle_fields o.
  destruct fb as [mb|]; cbn; [discriminate|].
  destruct fu as [mu|]; cbn; [destruct fr; cbn; discriminate|].
  destruct fs as [ms|]; cbn; [destruct fr; cbn; discriminate|].
  rewrite lookup_alter_eq.
  destruct (counter (store w) !! 1) as [T|]; cbn;
    [|destruct fr; cbn; discriminate].
  destruct fi as [mi|]; cbn; [destruct fr; cbn; discriminate|].
  destruct fc as [mc|]; cbn; [destruct fr; cbn; discriminate|].
  discriminate.
Qed.

(** With a working [ROLLBACK], a request either commits, advancing the
    counter row and appending its record, or leaves the tables alone. *)
Lemma verify_step :
  rollback_fails o = None ->
  let res := handleVerifyPayment o request env w in
  (committed (fst res) = true /\
   exists T, counter (store w) !! 1 = Some T /\
     fst res = Fulfilled (success_response (T + 1)) /\
     store (snd res)
     = {| counter := alter (fun t => t + 1) 1 (counter (store w));
          payments := payments (store w) ++ [payment_of (T + 1) request] |})
  \/ (committed (fst res) = false /\ store (snd res) = store w).
Proof.
  intros Hr res. subst res.
  destruct (decide (signature_valid request env)) as [Hv|Hn].
  2:{ right. rewrite verify_invalid by assumption. split; reflexivity. }
  destruct (begin_fails o) as [mb|] eqn:Hb.
  { right. rewrite (verify_begin_fails mb) by assumption. split; reflexivity. }
  destruct (update_fails o) as [mu|] eqn:Hu.
  2: destruct (select_fails o) as [ms|] eqn:Hs.
  3: destruct (counter (store w) !! 1) as [T|] eqn:HT.
  3: destruct (insert_fails o) as [mi|] eqn:Hi.
  4: destruct (commit_fails o) as [mc|] eqn:Hc.
  5:{ left. rewrite (verify_commit T) by (unfold storage_succeeds; auto).
      split; [reflexivity|]. exists T. auto. }
  all: right;
    destruct (verify_rollback Hv Hb Hr) as (m & Hres & Hst & _);
    [ rewrite ?Hu, ?Hs, ?Hi, ?Hc; auto 6 | ];
    rewrite Hres, Hst; split; reflexivity.
Qed.

End Verification.

(** C3.  [verifySignature] resolves to [true] exactly when the supplied
    signature is the string made of the lowercase hex digits of the
    HMAC-SHA-256, keyed with the secret, of the bytes of
    ["{order_id}|{payment_id}"], and to [false] for every other value; it
    never rejects.  Accordingly [verify-payment] answers
    ["Invalid payment signature"] exactly for the requests whose signature is
    not that string, whatever the store does. *)
Theorem signature_accepted_iff_hmac
    (o : oracle) (request : request) (env : bindings) (w : world) :
  let fields := parsed_body request in
  let orderId := prop fields "razorpay_order_id" in
  let paymentId := prop fields "razorpay_payment_id" in
  let signature := prop fields "razorpay_signature" in
  let expected :=
    lowercase_hex
      (Sha256.hmac (encode (RZP_SECRET env))
         (encode (to_string orderId +:+ "|" +:+ to_string paymentId))) in
  (exists isValid : bool,
     verifySignature orderId paymentId signature (RZP_SECRET env) w
     = (Fulfilled isValid, w) /\
     (isValid = true <-> signature = JStr expected)) /\
  (fst (handleVerifyPayment o request env w)
   = Fulfilled (jsonResponse [("error", JStr "Invalid payment signature")] 400)
   <-> signature <> JStr expected).
Proof.
  intros fields orderId paymentId signature expected. split.
  - exists (strict_eq_string
              (computed_signature orderId paymentId (RZP_SECRET env)) signature).
    split; [reflexivity|].
    rewrite strict_eq_string_spec, computed_signature_expected. reflexivity.
  - split.
    + intros Hres Hv.
      apply (verify_valid_not_signature_error o request env w Hv Hres).
    + intros Hn. rewrite verify_invalid by exact Hn. reflexivity.
Qed.

(** ** One request after the other *)

Lemma ledger_nonneg (t : tables) (M : Z) :
  0 <= M -> ledger t M -> Z.of_nat (length (payments t)) = M.
Proof.
  intros HM [_ Hnums].
  apply (f_equal (@length Z)) in Hnums.
  unfold order_numbers in Hnums. rewrite length_map, length_seqZ in Hnums. lia.
Qed.

Lemma ledger_commit (t : tables) (M : Z) (p : payment) :
  0 <= M -> ledger t M -> order_number p = M + 1 ->
  ledger {| counter := alter (fun t => t + 1) 1 (counter t);
            payments := payments t ++ [p] |} (M + 1).
Proof.
  intros HM [Hc Hnums] Hp. split; cbn.
  - rewrite lookup_alter_eq, Hc. reflexivity.
  - unfold order_numbers in *. cbn. rewrite map_app, Hnums. cbn. rewrite Hp.
    replace (M + 1) with (Z.of_nat (S (Z.to_nat M))) at 2 by lia.
    rewrite seqZ_S. do 2 f_equal; lia.
Qed.

Lemma commits_nonneg (ps : list (promise response)) : 0 <= commits ps.
Proof. induction ps as [|p ps IH]; cbn; [lia|]. destruct (committed p); lia. Qed.

(** The ledger is kept by every sequence of requests. *)
Lemma serve_ledger (env : bindings) (calls : list verification) :
  Forall rollback_goes_through calls ->
  forall (w : world) (M : Z),
    0 <= M -> ledger (store w) M ->
    ledger (store (snd (serve env calls w))) (M + commits (fst (serve env calls w))).
Proof.
  induction 1 as [|c calls Hc Hcalls IH]; intros w M HM Hl; cbn.
  { rewrite Z.add_0_r. exact Hl. }
  pose proof (verify_step (v_oracle c) (v_request c) env w Hc) as Hstep.
  cbn zeta in Hstep.
  destruct (handleVerifyPayment (v_oracle c) (v_request c) env w) as [p w'].
  cbn [fst snd] in Hstep.
  destruct Hstep as [(Hp & T & HT & _ & Hst) | (Hp & Hst)].
  - assert (T = M) as -> by (destruct Hl as [Hl _]; congruence).
    specialize (IH w' (M + 1) ltac:(lia)).
    rewrite Hst in IH. specialize (IH (ledger_commit _ _ (payment_of (M + 1) (v_request c)) HM Hl eq_refl)).
    destruct (serve env calls w') as [ps w'']. cbn [fst snd commits] in *.
    rewrite Hp. replace (M + (1 + commits ps)) with (M + 1 + commits ps) by lia.
    exact IH.
  - specialize (IH w' M HM). rewrite Hst in IH. specialize (IH Hl).
    destruct (serve env calls w') as [ps w'']. cbn [fst snd commits] in *.
    rewrite Hp. exact IH.
Qed.

Lemma initial_ledger : ledger (store initial_world) 0.
Proof. split; reflexivity. Qed.

Lemma max_seqZ (n : nat) (m : Z) :
  0 <= m ->
  foldr Z.max 0 (seqZ m (Z.of_nat n)) = if decide (n = O) then 0 else m + Z.of_nat n - 1.
Proof.
  revert m. induction n as [|n IH]; intros m Hm; [reflexivity|].
  rewrite seqZ_cons by lia. cbn [foldr].
  replace (Z.pred (Z.of_nat (S n))) with (Z.of_nat n) by lia.
  rewrite IH by lia. repeat case_decide; lia.
Qed.

Lemma ledger_facts (t : tables) (M : Z) :
  0 <= M -> ledger t M ->
  (forall k, k ∈ order_numbers t <-> 1 <= k <= M) /\
  NoDup (order_numbers t) /\
  Z.of_nat (length (payments t)) = M /\
  max_order_number t = M.
Proof.
  intros HM Hl. pose proof (ledger_nonneg _ _ HM Hl) as Hlen.
  destruct Hl as [Hc Hnums]. split; [|split; [|split]].
  - intros k. rewrite Hnums, elem_of_seqZ. lia.
  - rewrite Hnums. apply NoDup_seqZ.
  - exact Hlen.
  - unfold max_order_number. rewrite Hnums.
    replace M with (Z.of_nat (Z.to_nat M)) at 1 by lia.
    rewrite max_seqZ by lia. case_decide; lia.
Qed.

(** Serving a sequence is serving a prefix and then the rest: the worlds
    after the prefixes are the points the sequence goes through. *)
Lemma serve_app (env : bindings) (before after : list verification) (w : world) :
  serve env (before ++ after) w
  = (fst (serve env before w) ++ fst (serve env after (snd (serve env before w))),
     snd (serve env after (snd (serve env before w)))).
Proof.
  revert w. induction before as [|c before IH]; intros w; cbn.
  { destruct (serve env after w); reflexivity. }
  destruct (handleVerifyPayment (v_oracle c) (v_request c) env w) as [p w'].
  rewrite IH. destruct (serve env before w') as [ps w'']. reflexivity.
Qed.

(** C1.  Serve any sequence of verification requests from the initial store
    (counter row at 0, no record), whatever their signatures and whatever
    statements fail, the store being transactional: every [ROLLBACK] is
    carried out (no partial failure leaves orphaned state).  At every point, that is after
    the first [n] requests for every [n], with [M] the number of requests
    answered with success so far: the order numbers of the records are
    exactly 1, ..., [M], each once, the counter row holds [M], there are [M]
    records, and [M] is the largest order number (0 when there is none). *)
Theorem order_numbers_are_one_to_commits
    (env : bindings) (calls : list verification) (n : nat) :
  Forall rollback_goes_through calls ->
  let outcome := serve env (take n calls) initial_world in
  let M := commits (fst outcome) in
  let t := store (snd outcome) in
  order_numbers t = seqZ 1 M /\
  (forall k, k ∈ order_numbers t <-> 1 <= k <= M) /\
  NoDup (order_numbers t) /\
  counter t !! 1 = Some M /\
  Z.of_nat (length (payments t)) = M /\
  max_order_number t = M.
Proof.
  intros Hcalls outcome M t.
  pose proof (serve_ledger env (take n calls) (Forall_take _ n _ Hcalls)
                initial_world 0 ltac:(lia) initial_ledger) as Hl.
  rewrite Z.add_0_l in Hl. fold outcome M t in Hl.
  pose proof (commits_nonneg (fst outcome)) as HM. fold M in HM.
  destruct (ledger_facts t M HM Hl) as (Hset & Hnd & Hlen & Hmax).
  destruct Hl as [Hc Hnums]. auto 10.
Qed.

Lemma good_signature_valid :
  signature_valid (sample_verification good_signature) sample_env.
Proof. vm_compute. reflexivity. Qed.

Lemma tampered_signature_invalid :
  ~ signature_valid (sample_verification tampered_signature) sample_env.
Proof. vm_compute. discriminate. Qed.

Lemma sample_calls_rollback : Forall rollback_goes_through sample_calls.
Proof. repeat constructor. Qed.

Lemma order_numbers_are_one_to_commits_witness :
  Forall rollback_goes_through sample_calls /\
  let outcome := serve sample_env (take 4 sample_calls) initial_world in
  let M := commits (fst outcome) in
  let t := store (snd outcome) in
  order_numbers t = seqZ 1 M /\
  (forall k, k ∈ order_numbers t <-> 1 <= k <= M) /\
  NoDup (order_numbers t) /\
  counter t !! 1 = Some M /\
  Z.of_nat (length (payments t)) = M /\
  max_order_number t = M.
Proof.
  split; [exact sample_calls_rollback|].
  exact (order_numbers_are_one_to_commits sample_env sample_calls 4
           sample_calls_rollback).
Defined.

(** ** A successful verification *)

Lemma alter_counter (c : gmap Z Z) (T : Z) :
  c !! 1 = Some T -> alter (fun t => t + 1) 1 c = <[1 := T + 1]> c.
Proof.
  intros HT. apply map_eq. intros i.
  destruct (decide (i = 1)) as [->|Hi].
  - rewrite lookup_alter_eq, lookup_insert_eq, HT. reflexivity.
  - rewrite lookup_alter_ne, lookup_insert_ne by congruence. reflexivity.
Qed.

(** C2.  A request with the expected signature, served by a store that lets
    every statement through while the counter row holds [T], is answered with
    [{ status: "success", orderNumber: T + 1 }]; afterwards the counter row
    holds [T + 1] (the other rows are as before) and the records are those
    before followed by one new record, whose order number is [T + 1] and
    whose other columns are the supplied name, mobile, address, amount,
    razorpay_order_id and razorpay_payment_id. *)
Theorem successful_verification
    (o : oracle) (request : request) (env : bindings) (w : world) (T : Z) :
  signature_valid request env ->
  storage_succeeds o ->
  counter (store w) !! 1 = Some T ->
  exists w',
    handleVerifyPayment o request env w
    = (Fulfilled (jsonResponse [("status", JStr "success");
                                ("orderNumber", JNum (T + 1))] 200), w') /\
    counter (store w') !! 1 = Some (T + 1) /\
    counter (store w') = <[1 := T + 1]> (counter (store w)) /\
    payments (store w')
    = payments (store w)
      ++ [ {| order_number := T + 1;
              pay_name := prop (parsed_body request) "name";
              pay_mobile := prop (parsed_body request) "mobile";
              pay_address := prop (parsed_body request) "address";
              pay_amount := prop (parsed_body request) "amount";
              pay_razorpay_order_id := prop (parsed_body request) "razorpay_order_id";
              pay_razorpay_payment_id := prop (parsed_body request) "razorpay_payment_id" |} ].
Proof.
  intros Hv Hs HT. eexists. split; [apply verify_commit; eassumption|].
  cbn [store counter payments]. rewrite (alter_counter _ T HT).
  split; [apply lookup_insert_eq|]. split; reflexivity.
Qed.

Lemma healthy_succeeds (id : jsval) (now : Z) : storage_succeeds (healthy id now).
Proof. repeat split. Qed.

Lemma successful_verification_witness :
  signature_valid (sample_verification good_signature) sample_env /\
  storage_succeeds (healthy JNull 0) /\
  counter (store initial_world) !! 1 = Some 0 /\
  exists w',
    handleVerifyPayment (healthy JNull 0) (sample_verification good_signature)
      sample_env initial_world
    = (Fulfilled (jsonResponse [("status", JStr "success");
                                ("orderNumber", JNum 1)] 200), w') /\
    counter (store w') !! 1 = Some 1 /\
    payments (store w')
    = [ {| order_number := 1;
           pay_name := JStr "Asha";
           pay_mobile := JStr "12345";
           pay_address := JStr "12 Hill Road";
           pay_amount := JNum 5;
           pay_razorpay_order_id := JStr "order_1";
           pay_razorpay_payment_id := JStr "pay_1" |} ].
Proof.
  split; [exact good_signature_valid|].
  split; [apply healthy_succeeds|].
  split; [reflexivity|].
  destruct (successful_verification (healthy JNull 0)
              (sample_verification good_signature) sample_env initial_world 0
              good_signature_valid (healthy_succeeds JNull 0) eq_refl)
    as (w' & Hres & Hc & _ & Hp).
  exists w'. split; [exact Hres|]. split; [exact Hc|]. exact Hp.
Defined.

(** ** A rejected signature *)

(** C4.  A request whose signature is not the expected one is answered with
    status 400 and [{ error: "Invalid payment signature" }], and the world is
    the one before: same counter, same records, no transaction opened and no
    statement sent to the store. *)
Theorem invalid_signature_changes_nothing
    (o : oracle) (request : request) (env : bindings) (w : world) :
  ~ signature_valid request env ->
  handleVerifyPayment o request env w
  = (Fulfilled (jsonResponse [("error", JStr "Invalid payment signature")] 400), w).
Proof. apply verify_invalid. Qed.

Lemma invalid_signature_changes_nothing_witness :
  ~ signature_valid (sample_verification tampered_signature) sample_env /\
  handleVerifyPayment (healthy JNull 0) (sample_verification tampered_signature)
    sample_env initial_world
  = (Fulfilled (jsonResponse [("error", JStr "Invalid payment signature")] 400),
     initial_world).
Proof.
  split; [exact tampered_signature_invalid|].
  exact (invalid_signature_changes_nothing (healthy JNull 0)
           (sample_verification tampered_signature) sample_env initial_world
           tampered_signature_invalid).
Defined.

(** ** A failed transaction *)

(** C5.  The signature is the expected one and [BEGIN TRANSACTION] went
    through, in a transactional store.  If the counter increment, the
    read-back or the insert fails (likewise when the [COMMIT] fails or the
    read-back finds no counter row), the request is answered with status 500
    and an error that starts with ["Database error: "]; the transaction is
    rolled back: the tables are those before the request and no transaction
    stays open.  In particular the counter row holds its pre-increment value
    [T], and when no record was numbered above [T] before, none carries the
    would-be number [T + 1]. *)
Theorem failed_transaction_is_rolled_back
    (o : oracle) (request : request) (env : bindings) (w : world) :
  signature_valid request env ->
  begin_fails o = None ->
  transactional o ->
  update_fails o <> None \/ select_fails o <> None \/ insert_fails o <> None \/
  commit_fails o <> None \/ counter (store w) !! 1 = None ->
  exists (message : string) (w' : world),
    handleVerifyPayment o request env w
    = (Fulfilled (jsonResponse
                    [("error", JStr ("Database error: " +:+ message))] 500), w') /\
    store w' = store w /\
    txn w' = None /\
    forall T, counter (store w) !! 1 = Some T ->
      counter (store w') !! 1 = Some T /\
      ((forall p, p ∈ payments (store w) -> order_number p <= T) ->
       forall p, p ∈ payments (store w') -> order_number p <> T + 1).
Proof.
  intros Hv Hb Hr Hfail.
  destruct (verify_rollback o request env w Hv Hb Hr) as (m & Hres & Hst & Htx).
  { destruct Hfail as [H|[H|[H|[H|H]]]]; auto 6. }
  destruct (handleVerifyPayment o request env w) as [p w']. cbn [fst snd] in *.
  exists m, w'. subst p. split; [reflexivity|]. split; [exact Hst|].
  split; [exact Htx|]. intros T HT. rewrite Hst. split; [exact HT|].
  intros Hle p Hp Habs. specialize (Hle p Hp). lia.
Qed.

Lemma insert_failing_fails (message : string) :
  insert_fails (insert_failing message) <> None.
Proof. discriminate. Qed.

Lemma failed_transaction_is_rolled_back_witness :
  signature_valid (sample_verification good_signature) sample_env /\
  begin_fails (insert_failing "D1_ERROR: disk I/O error") = None /\
  transactional (insert_failing "D1_ERROR: disk I/O error") /\
  insert_fails (insert_failing "D1_ERROR: disk I/O error") <> None /\
  exists (message : string) (w' : world),
    handleVerifyPayment (insert_failing "D1_ERROR: disk I/O error")
      (sample_verification good_signature) sample_env initial_world
    = (Fulfilled (jsonResponse
                    [("error", JStr ("Database error: " +:+ message))] 500), w') /\
    store w' = store initial_world /\
    txn w' = None.
Proof.
  split; [exact good_signature_valid|].
  split; [reflexivity|]. split; [reflexivity|].
  split; [apply insert_failing_fails|].
  destruct (failed_transaction_is_rolled_back
              (insert_failing "D1_ERROR: disk I/O error")
              (sample_verification good_signature) sample_env initial_world
              good_signature_valid eq_refl eq_refl
              (or_intror (or_intror (or_introl
                 (insert_failing_fails "D1_ERROR: disk I/O error")))))
    as (m & w' & Hres & Hst & Htx & _).
  exists m, w'. split; [exact Hres|]. split; [exact Hst|]. exact Htx.
Defined.

(** Without the [ROLLBACK] the increment stays: here the insert fails and
    then the rollback, the promise is rejected, the counter row holds 1 and
    there is no record.  This is the partial failure that the properties of
    the ledger set aside. *)
Remark failed_rollback_leaves_increment :
  let res := handleVerifyPayment rollback_failing
               (sample_verification good_signature) sample_env initial_world in
  fst res = Rejected "D1_ERROR: connection lost" /\
  counter (store (snd res)) !! 1 = Some 1 /\
  payments (store (snd res)) = [] /\
  txn (snd res) = Some initial_tables.
Proof. vm_compute. repeat split. Qed.

(** ** The quote *)

Lemma next_order_info (db : oracle) (w : world) :
  select_fails db = None ->
  getNextOrderInfo db w
  = (Fulfilled
       (let totalOrders := default 0 (counter (store w) !! 1) in
        {| totalOrders := totalOrders; nextAmount := (totalOrders + 1) * 10 |}),
     {| store := store w; txn := txn w;
        trace := trace w ++ [Sql SELECT_counter] |}).
Proof.
  intros Hs. unfold_js. cbn beta iota zeta. rewrite Hs. cbn.
  destruct (counter (store w) !! 1); reflexivity.
Qed.

Lemma next_amount_response (db : oracle) (w : world) :
  select_fails db = None ->
  handleNextAmount db w
  = (Fulfilled
       (jsonResponse
          [("nextAmount", JNum ((default 0 (counter (store w) !! 1) + 1) * 10))] 200),
     {| store := store w; txn := txn w;
        trace := trace w ++ [Sql SELECT_counter] |}).
Proof.
  intros Hs. unfold handleNextAmount, async, await, call, bind, await_promise.
  rewrite next_order_info by assumption. reflexivity.
Qed.

(** C6.  In a world whose counter row holds [T], and with a store that
    answers the query, [getNextOrderInfo] resolves to [(T + 1) * 10] and
    [GET /api/next-amount] is answered with [{ nextAmount: (T + 1) * 10 }];
    the tables and the open transaction, if any, are untouched (the query is
    the only thing sent to the store).  Hence, when the world is the one left
    by a sequence of verification requests served from the initial store
    (every [ROLLBACK] going through), [T] is the number [N] of requests that
    were answered with success, and the quote is [(N + 1) * 10]. *)
Theorem next_amount_is_next_multiple_of_ten
    (db : oracle) (w : world) (T : Z) :
  select_fails db = None ->
  counter (store w) !! 1 = Some T ->
  (exists w',
     getNextOrderInfo db w
     = (Fulfilled {| totalOrders := T; nextAmount := (T + 1) * 10 |}, w') /\
     handleNextAmount db w
     = (Fulfilled (jsonResponse [("nextAmount", JNum ((T + 1) * 10))] 200), w') /\
     store w' = store w /\ txn w' = txn w /\
     trace w' = trace w ++ [Sql SELECT_counter]) /\
  (forall (env : bindings) (calls : list verification),
     Forall rollback_goes_through calls ->
     w = snd (serve env calls initial_world) ->
     T = commits (fst (serve env calls initial_world))).
Proof.
  intros Hs HT. split.
  - eexists. rewrite next_order_info, next_amount_response by assumption.
    rewrite HT. cbn. repeat split; reflexivity.
  - intros env calls Hcalls ->.
    pose proof (serve_ledger env calls Hcalls initial_world 0 ltac:(lia)
                  initial_ledger) as [Hc _].
    rewrite Z.add_0_l in Hc. congruence.
Qed.

Lemma next_amount_is_next_multiple_of_ten_witness :
  select_fails (healthy JNull 0) = None /\
  counter (store (snd (serve sample_env sample_calls initial_world))) !! 1 = Some 2 /\
  fst (handleNextAmount (healthy JNull 0)
         (snd (serve sample_env sample_calls initial_world)))
  = Fulfilled (jsonResponse [("nextAmount", JNum 30)] 200) /\
  commits (fst (serve sample_env sample_calls initial_world)) = 2.
Proof.
  assert (counter (store (snd (serve sample_env sample_calls initial_world))) !! 1
          = Some 2) as HT by (vm_compute; reflexivity).
  destruct (next_amount_is_next_multiple_of_ten (healthy JNull 0)
              (snd (serve sample_env sample_calls initial_world)) 2 eq_refl HT)
    as ((w' & _ & Hq & _) & HN).
  split; [reflexivity|]. split; [exact HT|].
  split; [rewrite Hq; reflexivity|].
  symmetry. exact (HN sample_env sample_calls sample_calls_rollback eq_refl).
Defined.

(** C9.  When the counter table has no row with [id = 1] and the store
    answers the query (with no row), [getNextOrderInfo] does not reject: it
    takes [totalOrders] to be 0 and resolves to the quote 10, which
    [GET /api/next-amount] returns; the tables are untouched. *)
Theorem missing_counter_row_quotes_ten (db : oracle) (w : world) :
  select_fails db = None ->
  counter (store w) !! 1 = None ->
  exists w',
    getNextOrderInfo db w
    = (Fulfilled {| totalOrders := 0; nextAmount := 10 |}, w') /\
    handleNextAmount db w
    = (Fulfilled (jsonResponse [("nextAmount", JNum 10)] 200), w') /\
    store w' = store w /\ txn w' = txn w.
Proof.
  intros Hs Hrow. eexists.
  rewrite next_order_info, next_amount_response by assumption.
  rewrite Hrow. cbn. repeat split; reflexivity.
Qed.

Lemma uninitialised_no_row : counter (store uninitialised_world) !! 1 = None.
Proof. apply lookup_empty. Qed.

Lemma missing_counter_row_quotes_ten_witness :
  select_fails (healthy JNull 0) = None /\
  counter (store uninitialised_world) !! 1 = None /\
  exists w',
    getNextOrderInfo (healthy JNull 0) uninitialised_world
    = (Fulfilled {| totalOrders := 0; nextAmount := 10 |}, w') /\
    handleNextAmount (healthy JNull 0) uninitialised_world
    = (Fulfilled (jsonResponse [("nextAmount", JNum 10)] 200), w').
Proof.
  split; [reflexivity|]. split; [exact uninitialised_no_row|].
  destruct (missing_counter_row_quotes_ten (healthy JNull 0)
              uninitialised_world eq_refl uninitialised_no_row)
    as (w' & Hi & Hq & _).
  exists w'. split; [exact Hi | exact Hq].
Defined.

(** ** Validation of an order *)

Lemma is_digit_spec (c : ascii) : is_digit c = true <-> decimal_digit c.
Proof.
  unfold is_digit, decimal_digit. cbn zeta.
  rewrite andb_true_iff, !N.leb_le. reflexivity.
Qed.

Lemma digits_then_end_spec (k : nat) (s : string) :
  digits_then_end k s = true
  <-> String.length s = k /\ Forall decimal_digit (list_ascii_of_string s).
Proof.
  revert s. induction k as [|k IH]; intros [|c s]; cbn.
  - split; [split; [reflexivity|constructor]|reflexivity].
  - split; [discriminate|intros [H _]; discriminate].
  - split; [discriminate|intros [H _]; discriminate].
  - rewrite andb_true_iff, is_digit_spec, IH, Forall_cons. split.
    + intros (Hc & Hlen & Hs). auto.
    + intros (Hlen & Hc & Hs). auto.
Qed.

Lemma test_mobile_spec (v : jsval) :
  test_mobile v = true <-> ten_decimal_digits (to_string v).
Proof. apply digits_then_end_spec. Qed.

Lemma missing_or_empty_not (v : jsval) : missing_or_empty v -> js_not v = true.
Proof. intros [->|[->| ->]]; reflexivity. Qed.

Lemma amount_check_spec (amount : jsval) :
  js_not amount || negb (String.eqb (typeof amount) "number") || js_lt amount 10
  = false
  <-> number_at_least 10 amount.
Proof.
  unfold number_at_least.
  destruct amount as [| |b|n|s]; cbn;
    try (rewrite ?orb_true_r; split; [discriminate|intros (n' & H & _); discriminate]).
  unfold js_not, truthy. rewrite negb_involutive, orb_false_r.
  destruct (Z.eqb_spec n 0) as [->|Hn]; cbn [orb].
  - split; [discriminate|]. intros (n' & [= <-] & Hle). lia.
  - rewrite Z.ltb_ge. split; [eauto|]. intros (n' & [= <-] & Hle). exact Hle.
Qed.

(** The handler as a cascade of tests. *)
Lemma create_order_cascade (o : oracle) (request : request) (env : bindings) (w : world) :
  let fields := parsed_body request in
  let name := prop fields "name" in
  let mobile := prop fields "mobile" in
  let address := prop fields "address" in
  let amount := prop fields "amount" in
  handleCreateOrder o request env w
  = if js_not name || js_not mobile || js_not address then
      (Fulfilled (jsonResponse [("error", JStr "All fields are required")] 400), w)
    else if negb (test_mobile mobile) then
      (Fulfilled (jsonResponse [("error", JStr "Invalid mobile number")] 400), w)
    else if js_not amount || negb (String.eqb (typeof amount) "number")
            || js_lt amount 10 then
      (Fulfilled (jsonResponse
                    [("error", JStr "Invalid amount. Minimum amount is ₹10")] 400), w)
    else
      async (do order <- await (createRazorpayOrder o amount env);
             ret (jsonResponse
                    [("order_id", order_id order); ("amount", amount);
                     ("key", JStr (RZP_KEY_ID env))] 200)) w.
Proof.
  cbn zeta. unfold handleCreateOrder, json.
  unfold async at 1. unfold bind at 1. unfold await at 1. unfold bind at 1.
  unfold call at 1. unfold async at 1. unfold ret at 1. cbn [await_promise].
  unfold ret at 1.
  destruct (js_not (prop (parsed_body request) "name")
            || js_not (prop (parsed_body request) "mobile")
            || js_not (prop (parsed_body request) "address")); [reflexivity|].
  destruct (negb (test_mobile (prop (parsed_body request) "mobile")));
    [reflexivity|].
  destruct (js_not (prop (parsed_body request) "amount")
            || negb (String.eqb (typeof (prop (parsed_body request) "amount")) "number")
            || js_lt (prop (parsed_body request) "amount") 10); reflexivity.
Qed.

(** C7.  A [create-order] request in which name, mobile or address is
    missing or empty, or the text of mobile is not exactly ten decimal
    digits, or amount is not a number that is at least 10, is answered with
    status 400 and an error; the world is the one before (nothing is sent to
    the provider or to the store).  The tests fail fast in this order: a
    field that is missing or empty gives ["All fields are required"]
    whatever mobile and amount are; with the three fields present, a mobile
    that is not ten digits gives ["Invalid mobile number"] whatever amount
    is; only then is the amount looked at. *)
Theorem create_order_rejects_invalid_input
    (o : oracle) (request : request) (env : bindings) (w : world) :
  let fields := parsed_body request in
  let name := prop fields "name" in
  let mobile := prop fields "mobile" in
  let address := prop fields "address" in
  let amount := prop fields "amount" in
  missing_or_empty name \/ missing_or_empty mobile \/ missing_or_empty address \/
  ~ ten_decimal_digits (to_string mobile) \/ ~ number_at_least 10 amount ->
  exists reason : string,
    handleCreateOrder o request env w
    = (Fulfilled (jsonResponse [("error", JStr reason)] 400), w) /\
    (missing_or_empty name \/ missing_or_empty mobile \/ missing_or_empty address ->
     reason = "All fields are required") /\
    (truthy name = true -> truthy mobile = true -> truthy address = true ->
     ~ ten_decimal_digits (to_string mobile) ->
     reason = "Invalid mobile number") /\
    (truthy name = true -> truthy mobile = true -> truthy address = true ->
     ten_decimal_digits (to_string mobile) ->
     reason = "Invalid amount. Minimum amount is ₹10").
Proof.
  intros fields name mobile address amount Hbad.
  rewrite create_order_cascade. fold fields name mobile address amount.
  destruct (js_not name || js_not mobile || js_not address) eqn:Hreq.
  { eexists. split; [reflexivity|]. split; [reflexivity|].
    unfold js_not in Hreq.
    split; intros Hn Hm Ha; rewrite Hn, Hm, Ha in Hreq; discriminate. }
  assert (~ (missing_or_empty name \/ missing_or_empty mobile \/
             missing_or_empty address)) as Hpresent.
  { intros [H|[H|H]]; apply missing_or_empty_not in H; fold name mobile address in H;
      rewrite H, ?orb_true_r in Hreq; discriminate. }
  destruct (test_mobile mobile) eqn:Hmob; cbn [negb].
  2:{ eexists. split; [reflexivity|]. split; [intros H; destruct (Hpresent H)|].
      split; [reflexivity|]. intros _ _ _ Hten.
      apply test_mobile_spec in Hten. congruence. }
  apply test_mobile_spec in Hmob.
  destruct (js_not amount || negb (String.eqb (typeof amount) "number")
            || js_lt amount 10) eqn:Ham.
  { eexists. split; [reflexivity|]. split; [intros H; destruct (Hpresent H)|].
    split; [|reflexivity]. intros _ _ _ Hn. destruct (Hn Hmob). }
  apply amount_check_spec in Ham. exfalso.
  destruct Hbad as [H|[H|[H|[H|H]]]]; auto.
Qed.

Lemma short_mobile_not_ten_digits :
  ~ ten_decimal_digits (to_string (prop (parsed_body short_mobile_order) "mobile")).
Proof. intros [Hlen _]. vm_compute in Hlen. discriminate. Qed.

Lemma create_order_rejects_invalid_input_witness :
  ~ ten_decimal_digits (to_string (prop (parsed_body short_mobile_order) "mobile")) /\
  handleCreateOrder (healthy (JStr "order_9") 0) short_mobile_order sample_env
    initial_world
  = (Fulfilled (jsonResponse [("error", JStr "Invalid mobile number")] 400),
     initial_world).
Proof.
  split; [exact short_mobile_not_ten_digits|].
  destruct (create_order_rejects_invalid_input (healthy (JStr "order_9") 0)
              short_mobile_order sample_env initial_world
              (or_intror (or_intror (or_intror
                 (or_introl short_mobile_not_ten_digits)))))
    as (reason & Hres & _ & Hmobile & _).
  rewrite Hres.
  rewrite (Hmobile ltac:(vm_compute; reflexivity) ltac:(vm_compute; reflexivity)
             ltac:(vm_compute; reflexivity) short_mobile_not_ten_digits).
  reflexivity.
Defined.

(** ** Verification does not validate the payer's fields *)

(** C10.  Nothing is assumed about name, mobile, address and amount: a
    request with the expected signature, served by a store that lets every
    statement through while the counter row holds [T], is answered with
    success and leaves one more record, whose columns are the supplied values
    as they came, whether or not mobile is a ten-digit string and amount is
    at least 10. *)
Theorem verification_keeps_fields_unvalidated
    (o : oracle) (request : request) (env : bindings) (w : world) (T : Z)
    (name mobile address amount : jsval) :
  prop (parsed_body request) "name" = name ->
  prop (parsed_body request) "mobile" = mobile ->
  prop (parsed_body request) "address" = address ->
  prop (parsed_body request) "amount" = amount ->
  signature_valid request env ->
  storage_succeeds o ->
  counter (store w) !! 1 = Some T ->
  committed (fst (handleVerifyPayment o request env w)) = true /\
  payments (store (snd (handleVerifyPayment o request env w)))
  = payments (store w)
    ++ [ {| order_number := T + 1;
            pay_name := name;
            pay_mobile := mobile;
            pay_address := address;
            pay_amount := amount;
            pay_razorpay_order_id := prop (parsed_body request) "razorpay_order_id";
            pay_razorpay_payment_id := prop (parsed_body request) "razorpay_payment_id" |} ].
Proof.
  intros <- <- <- <- Hv Hs HT.
  rewrite (verify_commit o request env w T Hv Hs HT). split; reflexivity.
Qed.

Lemma verification_keeps_fields_unvalidated_witness :
  signature_valid (sample_verification good_signature) sample_env /\
  storage_succeeds (healthy JNull 0) /\
  counter (store initial_world) !! 1 = Some 0 /\
  fst (handleCreateOrder (healthy JNull 0) (sample_verification good_signature)
         sample_env initial_world)
  = Fulfilled (jsonResponse [("error", JStr "Invalid mobile number")] 400) /\
  committed (fst (handleVerifyPayment (healthy JNull 0)
                    (sample_verification good_signature) sample_env initial_world))
  = true /\
  payments (store (snd (handleVerifyPayment (healthy JNull 0)
                          (sample_verification good_signature) sample_env
                          initial_world)))
  = [ {| order_number := 1;
         pay_name := JStr "Asha";
         pay_mobile := JStr "12345";
         pay_address := JStr "12 Hill Road";
         pay_amount := JNum 5;
         pay_razorpay_order_id := JStr "order_1";
         pay_razorpay_payment_id := JStr "pay_1" |} ].
Proof.
  split; [exact good_signature_valid|].
  split; [apply healthy_succeeds|].
  split; [reflexivity|].
  split; [vm_compute; reflexivity|].
  exact (verification_keeps_fields_unvalidated (healthy JNull 0)
           (sample_verification good_signature) sample_env initial_world 0
           (JStr "Asha") (JStr "12345") (JStr "12 Hill Road") (JNum 5)
           eq_refl eq_refl eq_refl eq_refl
           good_signature_valid (healthy_succeeds JNull 0) eq_refl).
Defined.

(** ** The entry point *)

(** [fetch] hands back the promise of the handler as it is: the handlers are
    [async], their call never throws, and the promise is returned without
    being awaited, so the [catch] of [fetch] is never entered. *)
Lemma fetch_returns_handler_promise
    (o : oracle) (request : request) (env : bindings) (w : world) :
  fetch o request env w
  = if String.eqb (method request) "OPTIONS" then
      (Fulfilled {| status := 200; headers := CORS_HEADERS; body := None |}, w)
    else if String.eqb (pathname request) "/api/next-amount" then
      handleNextAmount o w
    else if String.eqb (pathname request) "/api/create-order" then
      handleCreateOrder o request env w
    else if String.eqb (pathname request) "/api/verify-payment" then
      handleVerifyPayment o request env w
    else (Fulfilled (jsonResponse [("error", JStr "Not found")] 404), w).
Proof.
  unfold fetch, async_returning, try_catch, call, ret.
  destruct (String.eqb (method request) "OPTIONS"); [reflexivity|].
  destruct (String.eqb (pathname request) "/api/next-amount");
    [destruct (handleNextAmount o w); reflexivity|].
  destruct (String.eqb (pathname request) "/api/create-order");
    [destruct (handleCreateOrder o request env w); reflexivity|].
  destruct (String.eqb (pathname request) "/api/verify-payment");
    [destruct (handleVerifyPayment o request env w); reflexivity|].
  reflexivity.
Qed.

(** C8 does not hold of the code.  A well-formed [create-order] request
    whose provider call is refused makes [createRazorpayOrder] throw; the
    promise of [handleCreateOrder] is rejected, and [fetch], which returns
    that promise from inside its [try] without awaiting it, is rejected with
    it: the [catch] that would have built the 500 response is not entered. *)
Theorem fetch_lets_provider_failure_escape :
  fetch (provider_refusing 1700000000000) valid_order sample_env initial_world
  = (Rejected "Razorpay order creation failed",
     {| store := initial_tables;
        txn := None;
        trace := [ProviderCall
                    {| auth_user := "rzp_test_key";
                       auth_password := "key";
                       po_amount := JNum 1000;
                       po_currency := "INR";
                       po_receipt := "receipt_1700000000000" |}] |}).
Proof. vm_compute. reflexivity. Qed.

(** In general: whenever the fields pass validation and the provider refuses
    the order, the promise of [fetch] is rejected. *)
Remark fetch_rejects_when_provider_refuses (o : oracle) (request : request)
    (env : bindings) (w : world) :
  method request = "POST" ->
  pathname request = "/api/create-order" ->
  truthy (prop (parsed_body request) "name") = true ->
  truthy (prop (parsed_body request) "mobile") = true ->
  truthy (prop (parsed_body request) "address") = true ->
  ten_decimal_digits (to_string (prop (parsed_body request) "mobile")) ->
  number_at_least 10 (prop (parsed_body request) "amount") ->
  provider o = NotOk ->
  fst (fetch o request env w) = Rejected "Razorpay order creation failed".
Proof.
  intros Hm Hp Hn Hmob Ha Hten Hamt Hprov.
  rewrite fetch_returns_handler_promise, Hm, Hp. cbn [String.eqb Ascii.eqb Bool.eqb].
  rewrite create_order_cascade. unfold js_not at 1 2 3. rewrite Hn, Hmob, Ha.
  cbn [negb orb].
  apply test_mobile_spec in Hten. rewrite Hten. cbn [negb].
  apply amount_check_spec in Hamt. rewrite Hamt.
  unfold_js. cbn beta iota zeta. rewrite Hprov. reflexivity.
Qed.

(** The same for a failure of the store: a [BEGIN TRANSACTION] that fails
    rejects the promise of [fetch]. *)
Remark fetch_lets_storage_failure_escape (o : oracle) (request : request)
    (env : bindings) (w : world) (message : string) :
  method request = "POST" ->
  pathname request = "/api/verify-payment" ->
  signature_valid request env ->
  begin_fails o = Some message ->
  fst (fetch o request env w) = Rejected message.
Proof.
  intros Hm Hp Hv Hb. rewrite fetch_returns_handler_promise, Hm, Hp. cbn.
  rewrite (verify_begin_fails o request env w message Hv Hb). reflexivity.
Qed.

(** ** Test vectors *)

Example sha256_abc :
  lowercase_hex (Sha256.sha256 (encode "abc"))
  = "ba7816bf8f01cfea414140de5dae2223b00361a396177a9cb410ff61f20015ad".
Proof. vm_compute. reflexivity. Qed.

(** RFC 4231, test case 2. *)
Example hmac_rfc4231_2 :
  lowercase_hex (Sha256.hmac (encode "Jefe") (encode "what do ya want for nothing?"))
  = "5bdcc146bf60754e6a042426089575c75a003f089d2739839dec58b964ec3843".
Proof. vm_compute. reflexivity. Qed.

Example number_toString_examples :
  number_toString 10 1234567890 = "1234567890" /\
  number_toString 16 255 = "ff" /\
  number_toString 16 0 = "0" /\
  number_toString 10 (-42) = "-42" /\
  padStart0 2 (number_toString 16 10) = "0a".
Proof. vm_compute. repeat split. Qed.

(** The scenario of the specification: from the initial store the quote is
    10; after one committed verification the counter row holds 1, the record
    has order number 1 and the quote is 20. *)
Example first_payment_scenario :
  fst (handleNextAmount (healthy JNull 0) initial_world)
  = Fulfilled (jsonResponse [("nextAmount", JNum 10)] 200) /\
  let w1 := snd (serve sample_env [good_call] initial_world) in
  counter (store w1) !! 1 = Some 1 /\
  order_numbers (store w1) = [1] /\
  fst (handleNextAmount (healthy JNull 0) w1)
  = Fulfilled (jsonResponse [("nextAmount", JNum 20)] 200).
Proof. vm_compute. repeat split. Qed.

(** A well-formed order whose provider call succeeds. *)
Example create_order_success :
  fst (fetch (healthy (JStr "order_9") 1700000000000) valid_order sample_env
         initial_world)
  = Fulfilled (jsonResponse [("order_id", JStr "order_9"); ("amount", JNum 10);
                             ("key", JStr "rzp_test_key")] 200).
Proof. vm_compute. reflexivity. Qed.

(** What the sample sequence leaves: two commits, order numbers 1 and 2. *)
Example sample_calls_outcome :
  let outcome := serve sample_env sample_calls initial_world in
  map committed (fst outcome) = [true; false; false; true] /\
  order_numbers (store (snd outcome)) = [1; 2] /\
  counter (store (snd outcome)) !! 1 = Some 2.
Proof. vm_compute. repeat split. Qed.

(** * Further properties of the worker *)

(** ** The verification handler, statement by statement *)

(** The whole handler for a request with the expected signature: what it
    answers, the tables it leaves and the statements it has sent, for every
    behaviour of the store. *)
Lemma verify_cascade (o : oracle) (request : request) (env : bindings) (w : world) :
  signature_valid request env ->
  handleVerifyPayment o request env w
  = let world_of s t tr := {| store := s; txn := t; trace := tr |} in
    let caught (message : string) (s : tables) (tr : list event) :=
      match rollback_fails o with
      | Some message' =>
          (Rejected message', world_of s (Some (store w)) (tr ++ [Sql ROLLBACK]))
      | None =>
          (Fulfilled (storage_error_response message),
           world_of (store w) None (tr ++ [Sql ROLLBACK]))
      end in
    let t0 := trace w ++ [Sql BEGIN_TRANSACTION] in
    match begin_fails o with
    | Some message => (Rejected message, world_of (store w) (txn w) t0)
    | None =>
      match update_fails o with
      | Some message => caught message (store w) (t0 ++ [Sql UPDATE_counter])
      | None =>
        let s1 := {| counter := alter (fun t => t + 1) 1 (counter (store w));
                     payments := payments (store w) |} in
        let t2 := t0 ++ [Sql UPDATE_counter; Sql SELECT_counter] in
        match select_fails o with
        | Some message => caught message s1 t2
        | None =>
          match counter (store w) !! 1 with
          | None =>
              caught "Cannot read properties of null (reading 'total_orders')" s1 t2
          | Some T =>
            let p := payment_of (T + 1) request in
            let t3 := t2 ++ [Sql (INSERT_payment p)] in
            match insert_fails o with
            | Some message => caught message s1 t3
            | None =>
              let s2 := {| counter := counter s1;
                           payments := payments (store w) ++ [p] |} in
              match commit_fails o with
              | Some message => caught message s2 (t3 ++ [Sql COMMIT])
              | None =>
                  (Fulfilled (success_response (T + 1)),
                   world_of s2 None (t3 ++ [Sql COMMIT]))
              end
            end
          end
        end
      end
    end.
Proof.
  intros Hv. apply signature_check in Hv.
  unfold_js. cbn beta iota zeta. rewrite Hv. clear Hv.
  oracle_fields o.
  destruct fb as [mb|]; cbn; [reflexivity|].
  destruct fu as [mu|]; cbn;
    [destruct fr; cbn; rewrite <- ?app_assoc; reflexivity|].
  destruct fs as [ms|]; cbn;
    [destruct fr; cbn; rewrite <- ?app_assoc; reflexivity|].
  rewrite lookup_alter_eq.
  destruct (counter (store w) !! 1) as [T|]; cbn;
    [|destruct fr; cbn; rewrite <- ?app_assoc; reflexivity].
  destruct fi as [mi|]; cbn;
    [destruct fr; cbn; rewrite <- ?app_assoc; reflexivity|].
  destruct fc as [mc|]; cbn;
    [destruct fr; cbn; rewrite <- ?app_assoc; reflexivity|].
  rewrite <- ?app_assoc. reflexivity.
Qed.

(** X1.  [BEGIN TRANSACTION] is awaited outside the [try]: when it fails, for
    a request with the expected signature, the promise of the handler is
    rejected with the store's message (there is no 500 response), nothing
    else is sent to the store, not even a [ROLLBACK], and the tables and the
    transaction state are those before. *)
Theorem begin_failure_escapes_without_effect
    (o : oracle) (request : request) (env : bindings) (w : world)
    (message : string) :
  signature_valid request env ->
  begin_fails o = Some message ->
  handleVerifyPayment o request env w
  = (Rejected message,
     {| store := store w; txn := txn w;
        trace := trace w ++ [Sql BEGIN_TRANSACTION] |}).
Proof.
  intros Hv Hb. rewrite verify_cascade by exact Hv. cbn zeta. rewrite Hb.
  reflexivity.
Qed.

Lemma begin_failure_escapes_without_effect_witness :
  signature_valid (sample_verification good_signature) sample_env /\
  begin_fails (store_faults (Some "D1_ERROR: not authorized") None None None None None)
  = Some "D1_ERROR: not authorized" /\
  handleVerifyPayment
    (store_faults (Some "D1_ERROR: not authorized") None None None None None)
    (sample_verification good_signature) sample_env initial_world
  = (Rejected "D1_ERROR: not authorized",
     {| store := initial_tables; txn := None;
        trace := [Sql BEGIN_TRANSACTION] |}).
Proof.
  split; [exact good_signature_valid|]. split; [reflexivity|].
  exact (begin_failure_escapes_without_effect
           (store_faults (Some "D1_ERROR: not authorized") None None None None None)
           (sample_verification good_signature) sample_env initial_world
           "D1_ERROR: not authorized" good_signature_valid eq_refl).
Defined.

(** X2.  When the counter table has no row with [id = 1], a request with the
    expected signature cannot be recorded even by a store without faults:
    the [UPDATE] changes nothing, the read-back is [null], reading
    [total_orders] of it throws, and the handler rolls back and answers 500
    with ["Database error: Cannot read properties of null (reading
    'total_orders')"].  No [INSERT] is sent and the tables are those
    before. *)
Theorem verification_without_counter_row
    (o : oracle) (request : request) (env : bindings) (w : world) :
  signature_valid request env ->
  storage_succeeds o ->
  transactional o ->
  counter (store w) !! 1 = None ->
  handleVerifyPayment o request env w
  = (Fulfilled
       (jsonResponse
          [("error",
            JStr "Database error: Cannot read properties of null (reading 'total_orders')")]
          500),
     {| store := store w; txn := None;
        trace := trace w ++ [Sql BEGIN_TRANSACTION; Sql UPDATE_counter;
                             Sql SELECT_counter; Sql ROLLBACK] |}).
Proof.
  intros Hv (Hb & Hu & Hs & _ & _) Hr Hrow. unfold transactional in Hr.
  rewrite verify_cascade by exact Hv. cbn zeta. rewrite Hb, Hu, Hs, Hrow, Hr.
  rewrite <- !app_assoc. reflexivity.
Qed.

Lemma rowless_no_row : counter (store rowless_world) !! 1 = None.
Proof. apply lookup_empty. Qed.

Lemma verification_without_counter_row_witness :
  signature_valid (sample_verification good_signature) sample_env /\
  storage_succeeds (healthy JNull 0) /\
  transactional (healthy JNull 0) /\
  counter (store rowless_world) !! 1 = None /\
  fst (handleVerifyPayment (healthy JNull 0) (sample_verification good_signature)
         sample_env rowless_world)
  = Fulfilled
      (jsonResponse
         [("error",
           JStr "Database error: Cannot read properties of null (reading 'total_orders')")]
         500).
Proof.
  split; [exact good_signature_valid|]. split; [apply healthy_succeeds|].
  split; [reflexivity|]. split; [exact rowless_no_row|].
  rewrite (verification_without_counter_row (healthy JNull 0)
             (sample_verification good_signature) sample_env rowless_world
             good_signature_valid (healthy_succeeds JNull 0) eq_refl
             rowless_no_row).
  reflexivity.
Defined.

(** X3.  In a transactional store, with the expected signature, an opened
    transaction and a counter row at [T]: the first statement that fails
    decides the answer.  The response is status 500 with ["Database error: "]
    followed by the message of that very statement; no later statement of
    the transaction is sent (a failed [UPDATE] is followed by neither
    [SELECT] nor [INSERT], a failed [INSERT] by no [COMMIT]), the next
    statement is the [ROLLBACK], and the world is the one before but for the
    log of statements. *)
Theorem first_failing_statement_decides
    (o : oracle) (request : request) (env : bindings) (w : world) (T : Z) :
  signature_valid request env ->
  begin_fails o = None ->
  transactional o ->
  counter (store w) !! 1 = Some T ->
  let answer message sent :=
    (Fulfilled (storage_error_response message),
     {| store := store w; txn := None;
        trace := trace w ++ Sql BEGIN_TRANSACTION :: sent ++ [Sql ROLLBACK] |}) in
  let p := payment_of (T + 1) request in
  (forall m, update_fails o = Some m ->
     handleVerifyPayment o request env w = answer m [Sql UPDATE_counter]) /\
  (forall m, update_fails o = None -> select_fails o = Some m ->
     handleVerifyPayment o request env w
     = answer m [Sql UPDATE_counter; Sql SELECT_counter]) /\
  (forall m, update_fails o = None -> select_fails o = None ->
     insert_fails o = Some m ->
     handleVerifyPayment o request env w
     = answer m [Sql UPDATE_counter; Sql SELECT_counter; Sql (INSERT_payment p)]) /\
  (forall m, update_fails o = None -> select_fails o = None ->
     insert_fails o = None -> commit_fails o = Some m ->
     handleVerifyPayment o request env w
     = answer m [Sql UPDATE_counter; Sql SELECT_counter; Sql (INSERT_payment p);
                 Sql COMMIT]).
Proof.
  intros Hv Hb Hr HT answer p. unfold transactional in Hr.
  rewrite verify_cascade by exact Hv. cbn zeta. rewrite Hb, Hr, HT.
  subst answer p. cbn beta.
  repeat split; intros m.
  - intros ->. rewrite <- !app_assoc. reflexivity.
  - intros -> ->. rewrite <- !app_assoc. reflexivity.
  - intros -> -> ->. rewrite <- !app_assoc. reflexivity.
  - intros -> -> -> ->. rewrite <- !app_assoc. reflexivity.
Qed.

Lemma first_failing_statement_decides_witness :
  signature_valid (sample_verification good_signature) sample_env /\
  begin_fails (store_faults None (Some "D1_ERROR: database is locked") None
                 (Some "D1_ERROR: disk I/O error") None None) = None /\
  transactional (store_faults None (Some "D1_ERROR: database is locked") None
                   (Some "D1_ERROR: disk I/O error") None None) /\
  counter (store initial_world) !! 1 = Some 0 /\
  handleVerifyPayment
    (store_faults None (Some "D1_ERROR: database is locked") None
       (Some "D1_ERROR: disk I/O error") None None)
    (sample_verification good_signature) sample_env initial_world
  = (Fulfilled (storage_error_response "D1_ERROR: database is locked"),
     {| store := initial_tables; txn := None;
        trace := [Sql BEGIN_TRANSACTION; Sql UPDATE_counter; Sql ROLLBACK] |}).
Proof.
  split; [exact good_signature_valid|]. split; [reflexivity|].
  split; [reflexivity|]. split; [reflexivity|].
  exact (proj1 (first_failing_statement_decides
                  (store_faults None (Some "D1_ERROR: database is locked") None
                     (Some "D1_ERROR: disk I/O error") None None)
                  (sample_verification good_signature) sample_env initial_world 0
                  good_signature_valid eq_refl eq_refl eq_refl)
           "D1_ERROR: database is locked" eq_refl).
Defined.

(** X4.  When the [INSERT] fails and then the [ROLLBACK] fails too, the
    [await] inside the [catch] throws: the promise of the handler is rejected
    with the message of the [ROLLBACK], the message of the [INSERT] is lost,
    and no response is built.  The increment is not undone: the counter row
    holds [T + 1] while the records are those before, and the transaction
    stays open. *)
Theorem failed_rollback_keeps_increment
    (o : oracle) (request : request) (env : bindings) (w : world) (T : Z)
    (insert_message rollback_message : string) :
  signature_valid request env ->
  begin_fails o = None -> update_fails o = None -> select_fails o = None ->
  insert_fails o = Some insert_message ->
  rollback_fails o = Some rollback_message ->
  counter (store w) !! 1 = Some T ->
  exists w',
    handleVerifyPayment o request env w = (Rejected rollback_message, w') /\
    counter (store w') !! 1 = Some (T + 1) /\
    payments (store w') = payments (store w) /\
    txn w' = Some (store w).
Proof.
  intros Hv Hb Hu Hs Hi Hr HT.
  rewrite verify_cascade by exact Hv. cbn zeta. rewrite Hb, Hu, Hs, HT, Hi, Hr.
  eexists. split; [reflexivity|]. cbn.
  rewrite lookup_alter_eq, HT. auto.
Qed.

Lemma failed_rollback_keeps_increment_witness :
  signature_valid (sample_verification good_signature) sample_env /\
  counter (store initial_world) !! 1 = Some 0 /\
  exists w',
    handleVerifyPayment rollback_failing (sample_verification good_signature)
      sample_env initial_world
    = (Rejected "D1_ERROR: connection lost", w') /\
    counter (store w') !! 1 = Some 1 /\
    payments (store w') = [] /\
    txn w' = Some initial_tables.
Proof.
  split; [exact good_signature_valid|]. split; [reflexivity|].
  exact (failed_rollback_keeps_increment rollback_failing
           (sample_verification good_signature) sample_env initial_world 0
           "D1_ERROR: disk I/O error" "D1_ERROR: connection lost"
           good_signature_valid eq_refl eq_refl eq_refl eq_refl eq_refl eq_refl).
Defined.

(** X5.  A verification that commits sends exactly five statements to the
    store, in this order: [BEGIN TRANSACTION], the [UPDATE] of the counter,
    the [SELECT] that reads it back, the [INSERT] of the record numbered with
    the value read back, and [COMMIT]; no [ROLLBACK] is sent and no
    transaction is left open. *)
Theorem committed_verification_statements
    (o : oracle) (request : request) (env : bindings) (w : world) (T : Z) :
  signature_valid request env ->
  storage_succeeds o ->
  counter (store w) !! 1 = Some T ->
  trace (snd (handleVerifyPayment o request env w))
  = trace w
    ++ [Sql BEGIN_TRANSACTION; Sql UPDATE_counter; Sql SELECT_counter;
        Sql (INSERT_payment
               {| order_number := T + 1;
                  pay_name := prop (parsed_body request) "name";
                  pay_mobile := prop (parsed_body request) "mobile";
                  pay_address := prop (parsed_body request) "address";
                  pay_amount := prop (parsed_body request) "amount";
                  pay_razorpay_order_id :=
                    prop (parsed_body request) "razorpay_order_id";
                  pay_razorpay_payment_id :=
                    prop (parsed_body request) "razorpay_payment_id" |});
        Sql COMMIT] /\
  txn (snd (handleVerifyPayment o request env w)) = None.
Proof.
  intros Hv Hs HT. rewrite (verify_commit o request env w T Hv Hs HT).
  split; reflexivity.
Qed.

Lemma committed_verification_statements_witness :
  signature_valid (sample_verification good_signature) sample_env /\
  storage_succeeds (healthy JNull 0) /\
  counter (store initial_world) !! 1 = Some 0 /\
  length (trace (snd (handleVerifyPayment (healthy JNull 0)
                        (sample_verification good_signature) sample_env
                        initial_world))) = 5%nat /\
  txn (snd (handleVerifyPayment (healthy JNull 0)
              (sample_verification good_signature) sample_env initial_world))
  = None.
Proof.
  split; [exact good_signature_valid|]. split; [apply healthy_succeeds|].
  split; [reflexivity|].
  destruct (committed_verification_statements (healthy JNull 0)
              (sample_verification good_signature) sample_env initial_world 0
              good_signature_valid (healthy_succeeds JNull 0) eq_refl)
    as [Htrace Htxn].
  split; [rewrite Htrace; reflexivity | exact Htxn].
Defined.

(** ** What no failure can do to the ledger *)

(** The tables after one request, whatever the signature and whatever the
    store does: those before, or those with the increment alone, or those
    with the increment and the new record. *)
Lemma verify_any_step (o : oracle) (request : request) (env : bindings)
    (w : world) (T : Z) :
  counter (store w) !! 1 = Some T ->
  let res := handleVerifyPayment o request env w in
  let bumped := alter (fun t => t + 1) 1 (counter (store w)) in
  (committed (fst res) = false /\ store (snd res) = store w) \/
  (committed (fst res) = false /\
   store (snd res) = {| counter := bumped; payments := payments (store w) |}) \/
  store (snd res)
  = {| counter := bumped;
       payments := payments (store w) ++ [payment_of (T + 1) request] |}.
Proof.
  intros HT res bumped. subst res bumped.
  destruct (decide (signature_valid request env)) as [Hv|Hn].
  2:{ left. rewrite verify_invalid by assumption. split; reflexivity. }
  rewrite verify_cascade by exact Hv. cbn zeta. rewrite HT.
  oracle_fields o.
  destruct fb; [left; split; reflexivity|].
  destruct fu; [destruct fr; left; split; reflexivity|].
  destruct fs; [destruct fr; [right; left|left]; split; reflexivity|].
  destruct fi; [destruct fr; [right; left|left]; split; reflexivity|].
  destruct fc; [destruct fr; [right; right|left; split]; reflexivity|].
  right. right. reflexivity.
Qed.

Lemma committed_appends (o : oracle) (request : request) (env : bindings)
    (w : world) :
  committed (fst (handleVerifyPayment o request env w)) = true ->
  length (payments (store (snd (handleVerifyPayment o request env w))))
  = S (length (payments (store w))).
Proof.
  destruct (decide (signature_valid request env)) as [Hv|Hn].
  2:{ rewrite verify_invalid by assumption. discriminate. }
  rewrite verify_cascade by exact Hv. cbn zeta.
  oracle_fields o.
  destruct fb; [discriminate|].
  destruct fu; [destruct fr; discriminate|].
  destruct fs; [destruct fr; discriminate|].
  destruct (counter (store w) !! 1); [|destruct fr; discriminate].
  destruct fi; [destruct fr; discriminate|].
  destruct fc; [destruct fr; discriminate|].
  intros _. cbn. rewrite length_app. cbn. lia.
Qed.

Lemma increasing_below_bump (t : tables) (T : Z) :
  increasing_below t T ->
  increasing_below {| counter := alter (fun t => t + 1) 1 (counter t);
                      payments := payments t |} (T + 1).
Proof.
  intros (Hc & H0 & Hs & Hb). split; [|split; [lia|split]].
  - cbn. rewrite lookup_alter_eq, Hc. reflexivity.
  - exact Hs.
  - unfold order_numbers in *. cbn.
    eapply Forall_impl; [exact Hb|]. cbn. intros k Hk. lia.
Qed.

Lemma increasing_below_record (t : tables) (T : Z) (p : payment) :
  order_number p = T + 1 ->
  increasing_below t T ->
  increasing_below {| counter := alter (fun t => t + 1) 1 (counter t);
                      payments := payments t ++ [p] |} (T + 1).
Proof.
  intros Hp (Hc & H0 & Hs & Hb). split; [|split; [lia|split]].
  - cbn. rewrite lookup_alter_eq, Hc. reflexivity.
  - unfold order_numbers in *. cbn. rewrite map_app. cbn.
    apply StronglySorted_app_2; [|exact Hs|repeat constructor].
    intros x1 x2 Hx1 Hx2. apply list_elem_of_singleton in Hx2. subst x2.
    rewrite Forall_forall in Hb. specialize (Hb x1 Hx1). lia.
  - unfold order_numbers in *. cbn. rewrite map_app. cbn.
    apply Forall_app. split.
    + eapply Forall_impl; [exact Hb|]. cbn. intros k Hk. lia.
    + constructor; [lia|constructor].
Qed.

(** One request keeps the numbering, and moves the counter and the records
    by at most one. *)
Lemma increasing_below_step (o : oracle) (request : request) (env : bindings)
    (w : world) (T : Z) :
  increasing_below (store w) T ->
  let res := handleVerifyPayment o request env w in
  exists T',
    increasing_below (store (snd res)) T' /\
    T <= T' /\
    Z.of_nat (length (payments (store (snd res)))) - T'
    <= Z.of_nat (length (payments (store w))) - T /\
    (length (payments (store w)) <= length (payments (store (snd res))))%nat.
Proof.
  intros Hinv res. pose proof Hinv as (HT & _ & _ & _).
  destruct (verify_any_step o request env w T HT) as [[_ Hst]|[[_ Hst]|Hst]];
    fold res in Hst; rewrite Hst.
  - exists T. split; [destruct (store w); exact Hinv|]. lia.
  - exists (T + 1). split; [apply increasing_below_bump, Hinv|]. cbn. lia.
  - exists (T + 1).
    split; [apply increasing_below_record; [reflexivity|exact Hinv]|].
    cbn. rewrite length_app. cbn. lia.
Qed.

Lemma serve_increasing (env : bindings) (calls : list verification) :
  forall (w : world) (T : Z),
    increasing_below (store w) T ->
    exists T',
      increasing_below (store (snd (serve env calls w))) T' /\
      T <= T' /\
      Z.of_nat (length (payments (store (snd (serve env calls w))))) - T'
      <= Z.of_nat (length (payments (store w))) - T /\
      Z.of_nat (length (payments (store w))) + commits (fst (serve env calls w))
      <= Z.of_nat (length (payments (store (snd (serve env calls w))))).
Proof.
  induction calls as [|c calls IH]; intros w T Hinv; cbn.
  { exists T. split; [exact Hinv|]. lia. }
  pose proof (increasing_below_step (v_oracle c) (v_request c) env w T Hinv)
    as (T1 & Hinv1 & HT1 & Hgap & Hlen).
  pose proof (committed_appends (v_oracle c) (v_request c) env w) as Hcommit.
  cbn zeta in Hinv1, Hgap, Hlen.
  destruct (handleVerifyPayment (v_oracle c) (v_request c) env w) as [p w1].
  cbn [fst snd] in *.
  destruct (IH w1 T1 Hinv1) as (T2 & Hinv2 & HT2 & Hgap2 & Hcom2).
  destruct (serve env calls w1) as [ps w2]. cbn [fst snd commits] in *.
  exists T2. split; [exact Hinv2|]. split; [lia|]. split; [lia|].
  destruct (committed p); [specialize (Hcommit eq_refl)|]; lia.
Qed.

Lemma initial_increasing : increasing_below (store initial_world) 0.
Proof. split; [reflexivity|]. split; [lia|]. split; constructor. Qed.

(** X6.  Serve any sequence of verification requests from the initial
    store, with any signatures and any failures of the store, a failing
    [ROLLBACK] included.  The counter row still exists and holds some [T];
    the order numbers of the records are strictly increasing in insertion
    order, hence never duplicated, and lie between 1 and [T]; there are at
    most [T] records, and at least as many as requests answered with
    success.  (Without a working [ROLLBACK] numbers can be skipped, but not
    assigned twice.) *)
Theorem order_numbers_never_repeat
    (env : bindings) (calls : list verification) :
  let outcome := serve env calls initial_world in
  let t := store (snd outcome) in
  exists T,
    counter t !! 1 = Some T /\
    StronglySorted Z.lt (order_numbers t) /\
    NoDup (order_numbers t) /\
    (forall k, k ∈ order_numbers t -> 1 <= k <= T) /\
    commits (fst outcome) <= Z.of_nat (length (payments t)) <= T.
Proof.
  intros outcome t.
  destruct (serve_increasing env calls initial_world 0 initial_increasing)
    as (T & (Hc & _ & Hs & Hb) & HT & Hgap & Hcom).
  fold outcome t in Hc, Hs, Hb, Hgap, Hcom. cbn in Hgap, Hcom.
  exists T. split; [exact Hc|]. split; [exact Hs|]. split.
  - clear -Hs. induction Hs as [|x l Hs IH Hx]; constructor; [|exact IH].
    intros Hin. rewrite Forall_forall in Hx. specialize (Hx x Hin). lia.
  - split; [|lia]. rewrite Forall_forall in Hb. exact Hb.
Qed.

(** X7.  One verification request, whatever its signature and whatever the
    store does, moves the counter row by 0 or by 1 and never back; it leaves
    every record in place and adds at most one at the end; it touches no
    other row of the counter table. *)
Theorem verification_only_moves_forward
    (o : oracle) (request : request) (env : bindings) (w : world) (T : Z) :
  counter (store w) !! 1 = Some T ->
  let w' := snd (handleVerifyPayment o request env w) in
  (counter (store w') !! 1 = Some T \/ counter (store w') !! 1 = Some (T + 1)) /\
  (payments (store w') = payments (store w) \/
   exists p, payments (store w') = payments (store w) ++ [p]) /\
  (forall id, id <> 1 -> counter (store w') !! id = counter (store w) !! id).
Proof.
  intros HT w'. subst w'.
  destruct (verify_any_step o request env w T HT) as [[_ Hst]|[[_ Hst]|Hst]];
    cbn zeta in Hst; rewrite Hst; cbn [counter payments store].
  - split; [left; exact HT|]. split; [left; reflexivity|reflexivity].
  - rewrite lookup_alter_eq, HT. split; [right; reflexivity|].
    split; [left; reflexivity|]. intros id Hid. apply lookup_alter_ne. congruence.
  - rewrite lookup_alter_eq, HT. split; [right; reflexivity|].
    split; [right; eexists; reflexivity|].
    intros id Hid. apply lookup_alter_ne. congruence.
Qed.

Lemma verification_only_moves_forward_witness :
  counter (store initial_world) !! 1 = Some 0 /\
  let w' := snd (handleVerifyPayment rollback_failing
                   (sample_verification good_signature) sample_env initial_world) in
  (counter (store w') !! 1 = Some 0 \/ counter (store w') !! 1 = Some (0 + 1)) /\
  (payments (store w') = payments (store initial_world) \/
   exists p, payments (store w') = payments (store initial_world) ++ [p]) /\
  (forall id, id <> 1 ->
     counter (store w') !! id = counter (store initial_world) !! id).
Proof.
  split; [reflexivity|].
  exact (verification_only_moves_forward rollback_failing
           (sample_verification good_signature) sample_env initial_world 0
           eq_refl).
Defined.

(** ** The same request again *)

(** X8.  Nothing in the handler looks for an earlier record of the same
    payment: the same request, with the expected signature, served [n] times
    by a store without faults is answered with success [n] times, advances
    the counter row from [T] to [T + n], and leaves [n] new records that
    carry the same fields and the same razorpay_payment_id under the order
    numbers [T + 1], ..., [T + n]. *)
Theorem replayed_request_is_recorded_again
    (n : nat) (o : oracle) (request : request) (env : bindings) (w : world) (T : Z) :
  signature_valid request env ->
  storage_succeeds o ->
  counter (store w) !! 1 = Some T ->
  let outcome := serve env (replayed n o request) w in
  commits (fst outcome) = Z.of_nat n /\
  counter (store (snd outcome)) !! 1 = Some (T + Z.of_nat n) /\
  payments (store (snd outcome))
  = payments (store w)
    ++ map (fun k => payment_of k request) (seqZ (T + 1) (Z.of_nat n)).
Proof.
  intros Hv Hs. revert w T.
  induction n as [|n IH]; intros w T HT; cbn zeta.
  { cbn. rewrite Z.add_0_r, app_nil_r. auto. }
  unfold replayed in *. cbn [replicate serve v_oracle v_request].
  rewrite (verify_commit o request env w T Hv Hs HT).
  specialize (IH {| store := {| counter := alter (fun t => t + 1) 1 (counter (store w));
                                payments := payments (store w)
                                            ++ [payment_of (T + 1) request] |};
                    txn := None;
                    trace := trace w ++ [Sql BEGIN_TRANSACTION; Sql UPDATE_counter;
                                         Sql SELECT_counter;
                                         Sql (INSERT_payment (payment_of (T + 1) request));
                                         Sql COMMIT] |} (T + 1)).
  cbn [store counter payments] in IH.
  rewrite lookup_alter_eq, HT in IH. specialize (IH eq_refl).
  cbn zeta in IH. destruct IH as (Hcom & Hcount & Hpay).
  destruct (serve env _ _) as [ps w']. cbn [fst snd commits committed] in *.
  split; [cbn; lia|]. split.
  - rewrite Hcount. f_equal. lia.
  - rewrite Hpay, <- app_assoc. f_equal.
    rewrite (seqZ_cons (T + 1)) by lia. cbn [map app]. do 3 f_equal; lia.
Qed.

Lemma replayed_request_is_recorded_again_witness :
  signature_valid (sample_verification good_signature) sample_env /\
  storage_succeeds (healthy JNull 0) /\
  counter (store initial_world) !! 1 = Some 0 /\
  let outcome := serve sample_env
                   (replayed 3 (healthy JNull 0) (sample_verification good_signature))
                   initial_world in
  commits (fst outcome) = 3 /\
  counter (store (snd outcome)) !! 1 = Some 3 /\
  map pay_razorpay_payment_id (payments (store (snd outcome)))
  = [JStr "pay_1"; JStr "pay_1"; JStr "pay_1"].
Proof.
  split; [exact good_signature_valid|]. split; [apply healthy_succeeds|].
  split; [reflexivity|].
  destruct (replayed_request_is_recorded_again 3 (healthy JNull 0)
              (sample_verification good_signature) sample_env initial_world 0
              good_signature_valid (healthy_succeeds JNull 0) eq_refl)
    as (Hcom & Hcount & Hpay).
  split; [exact Hcom|]. split; [exact Hcount|].
  rewrite Hpay. reflexivity.
Defined.

(** ** The shape of an accepted signature *)

Lemma round_length (st : list Z * list Z) (k : Z) :
  length (fst st) = 8%nat -> length (fst (Sha256.round st k)) = 8%nat.
Proof.
  destruct st as [vars win]. cbn [fst].
  do 9 (destruct vars as [|? vars]; try discriminate).
  reflexivity.
Qed.

Lemma rounds_length (ks : list Z) (st : list Z * list Z) :
  length (fst st) = 8%nat -> length (fst (fold_left Sha256.round ks st)) = 8%nat.
Proof.
  revert st. induction ks as [|k ks IH]; intros st Hst; [exact Hst|].
  cbn [fold_left]. apply IH, round_length, Hst.
Qed.

Lemma zip_add_length (xs ys : list Z) :
  length xs = length ys -> length (Sha256.zip_add xs ys) = length xs.
Proof.
  revert ys. induction xs as [|x xs IH]; intros [|y ys] Hlen;
    try discriminate; [reflexivity|].
  cbn. f_equal. apply IH. cbn in Hlen. lia.
Qed.

Lemma compress_length (h block : list Z) :
  length h = 8%nat -> length (Sha256.compress h block) = 8%nat.
Proof.
  intros Hh. unfold Sha256.compress.
  rewrite zip_add_length; [exact Hh|].
  rewrite rounds_length; [exact Hh|exact Hh].
Qed.

Lemma sha256_length (msg : list Z) : length (Sha256.sha256 msg) = 32%nat.
Proof.
  unfold Sha256.sha256.
  assert (forall blocks h, length h = 8%nat ->
            length (fold_left Sha256.compress blocks h) = 8%nat) as Hfold.
  { induction blocks as [|b blocks IH]; intros h Hh; [exact Hh|].
    cbn [fold_left]. apply IH, compress_length, Hh. }
  specialize (Hfold (Sha256.blocks (length (Sha256.bytes_words (Sha256.pad msg)))
                       (Sha256.bytes_words (Sha256.pad msg))) Sha256.H0 eq_refl).
  revert Hfold. generalize (fold_left Sha256.compress
    (Sha256.blocks (length (Sha256.bytes_words (Sha256.pad msg)))
       (Sha256.bytes_words (Sha256.pad msg))) Sha256.H0).
  intros l Hl.
  do 9 (destruct l as [|? l]; try discriminate). reflexivity.
Qed.

Lemma hmac_length (key data : list Z) : length (Sha256.hmac key data) = 32%nat.
Proof. apply sha256_length. Qed.

Lemma hex_digit_table :
  forallb (fun n => let c := N_of_ascii (hex_digit n) in
                    ((48 <=? c) && (c <=? 57) || (97 <=? c) && (c <=? 102))%N)
          (seqZ 0 16) = true.
Proof. vm_compute. reflexivity. Qed.

Lemma hex_digit_lowercase (n : Z) :
  0 <= n < 16 -> lowercase_hex_char (hex_digit n).
Proof.
  intros Hn. pose proof hex_digit_table as Htab.
  rewrite forallb_forall in Htab.
  specialize (Htab n ltac:(apply list_elem_of_In, elem_of_seqZ; lia)).
  cbn zeta in Htab. unfold lowercase_hex_char, decimal_digit.
  change (N_of_ascii "0") with 48%N. change (N_of_ascii "9") with 57%N.
  change (N_of_ascii "a") with 97%N. change (N_of_ascii "f") with 102%N.
  apply orb_true_iff in Htab.
  destruct Htab as [H|H]; apply andb_true_iff in H; rewrite !N.leb_le in H; auto.
Qed.

Lemma lowercase_hex_shape (bs : list Z) :
  Forall (fun b => 0 <= b < 256) bs ->
  String.length (lowercase_hex bs) = (2 * length bs)%nat /\
  Forall lowercase_hex_char (list_ascii_of_string (lowercase_hex bs)).
Proof.
  induction 1 as [|b bs Hb Hbs [IHlen IHall]]; [split; [reflexivity|constructor]|].
  cbn [lowercase_hex String.length list_ascii_of_string length]. split; [lia|].
  constructor; [|constructor; [|exact IHall]]; apply hex_digit_lowercase.
  - split; [apply Z.div_pos; lia|apply Z.div_lt_upper_bound; lia].
  - apply Z.mod_pos_bound. lia.
Qed.

(** X9.  Every request that gets past the signature check (whose answer is
    not the ["Invalid payment signature"] response) carries as
    razorpay_signature a string of exactly 64 lowercase hexadecimal digits.
    A request without the field, with a signature that is not a string, of
    another length, or with an uppercase digit, is answered with the
    signature error. *)
Theorem accepted_signature_is_64_lowercase_hex
    (o : oracle) (request : request) (env : bindings) (w : world) :
  fst (handleVerifyPayment o request env w)
  <> Fulfilled (jsonResponse [("error", JStr "Invalid payment signature")] 400) ->
  exists s : string,
    prop (parsed_body request) "razorpay_signature" = JStr s /\
    String.length s = 64%nat /\
    Forall lowercase_hex_char (list_ascii_of_string s).
Proof.
  intros Hans.
  destruct (decide (signature_valid request env)) as [Hv|Hn].
  2:{ exfalso. apply Hans. rewrite verify_invalid by exact Hn. reflexivity. }
  unfold signature_valid in Hv. cbn zeta in Hv.
  eexists. split; [exact Hv|]. unfold expected_signature.
  destruct (lowercase_hex_shape _ (hmac_range
              (encode (RZP_SECRET env))
              (encode (to_string (prop (parsed_body request) "razorpay_order_id")
                       +:+ "|"
                       +:+ to_string (prop (parsed_body request) "razorpay_payment_id")))))
    as [Hlen Hall].
  rewrite hmac_length in Hlen. split; [exact Hlen|exact Hall].
Qed.

Lemma good_signature_accepted :
  fst (handleVerifyPayment (healthy JNull 0) (sample_verification good_signature)
         sample_env initial_world)
  <> Fulfilled (jsonResponse [("error", JStr "Invalid payment signature")] 400).
Proof. vm_compute. discriminate. Qed.

Lemma accepted_signature_is_64_lowercase_hex_witness :
  fst (handleVerifyPayment (healthy JNull 0) (sample_verification good_signature)
         sample_env initial_world)
  <> Fulfilled (jsonResponse [("error", JStr "Invalid payment signature")] 400) /\
  exists s : string,
    prop (parsed_body (sample_verification good_signature)) "razorpay_signature"
    = JStr s /\
    String.length s = 64%nat /\
    Forall lowercase_hex_char (list_ascii_of_string s).
Proof.
  split; [exact good_signature_accepted|].
  exact (accepted_signature_is_64_lowercase_hex (healthy JNull 0)
           (sample_verification good_signature) sample_env initial_world
           good_signature_accepted).
Defined.



(** ** Orders that pass validation *)

Lemma acceptable_order_tests (request : request) :
  acceptable_order request <->
  js_not (prop (parsed_body request) "name")
  || js_not (prop (parsed_body request) "mobile")
  || js_not (prop (parsed_body request) "address") = false /\
  negb (test_mobile (prop (parsed_body request) "mobile")) = false /\
  js_not (prop (parsed_body request) "amount")
  || negb (String.eqb (typeof (prop (parsed_body request) "amount")) "number")
  || js_lt (prop (parsed_body request) "amount") 10 = false.
Proof.
  unfold acceptable_order. cbn zeta.
  rewrite <- amount_check_spec, <- test_mobile_spec.
  unfold js_not. rewrite !orb_false_iff, !negb_false_iff. tauto.
Qed.

(** The handler on fields that pass the tests: one call to the provider,
    whose answer decides. *)
Lemma create_order_accepted (o : oracle) (request : request) (env : bindings)
    (w : world) :
  acceptable_order request ->
  handleCreateOrder o request env w
  = let amount := prop (parsed_body request) "amount" in
    let w' := logged w (ProviderCall
                          {| auth_user := RZP_KEY_ID env;
                             auth_password := RZP_SECRET env;
                             po_amount := js_times amount 100;
                             po_currency := "INR";
                             po_receipt := "receipt_" +:+ number_toString 10 (now o) |}) in
    match provider o with
    | NetworkError message => (Rejected message, w')
    | NotOk => (Rejected "Razorpay order creation failed", w')
    | BadBody message => (Rejected message, w')
    | Order id =>
        (Fulfilled (jsonResponse [("order_id", id); ("amount", amount);
                                  ("key", JStr (RZP_KEY_ID env))] 200), w')
    end.
Proof.
  intros Hok. apply acceptable_order_tests in Hok. destruct Hok as (H1 & H2 & H3).
  rewrite create_order_cascade. cbn zeta. rewrite H1, H2, H3.
  unfold_js. unfold logged. cbn beta iota zeta.
  destruct (provider o); reflexivity.
Qed.


Lemma valid_order_ten_digits :
  ten_decimal_digits (to_string (prop (parsed_body valid_order) "mobile")).
Proof. apply test_mobile_spec. vm_compute. reflexivity. Qed.


(** X12.  When the provider does not mint the order, an order that passes
    validation gets no response from the handler: its promise is rejected,
    with the message of the network failure when [fetch] rejects, with
    ["Razorpay order creation failed"] when the answer is not ok, and with
    the parser's message when the body of an ok answer does not parse.  The
    request to the provider was sent all the same, and the store is left as
    it is. *)
Theorem provider_failure_rejects_order
    (o : oracle) (request : request) (env : bindings) (w : world) :
  acceptable_order request ->
  let res := handleCreateOrder o request env w in
  (forall m, provider o = NetworkError m -> fst res = Rejected m) /\
  (provider o = NotOk -> fst res = Rejected "Razorpay order creation failed") /\
  (forall m, provider o = BadBody m -> fst res = Rejected m) /\
  ((forall id, provider o <> Order id) ->
   store (snd res) = store w /\ txn (snd res) = txn w /\
   exists sent, trace (snd res) = trace w ++ [ProviderCall sent]).
Proof.
  intros Hok res. subst res. rewrite create_order_accepted by exact Hok.
  cbn zeta. repeat split.
  - intros m ->. reflexivity.
  - intros ->. reflexivity.
  - intros m ->. reflexivity.
  - destruct (provider o); reflexivity.
  - destruct (provider o); reflexivity.
  - destruct (provider o); eexists; reflexivity.
Qed.

Lemma valid_order_acceptable : acceptable_order valid_order.
Proof.
  unfold acceptable_order. cbn zeta.
  split; [vm_compute; reflexivity|]. split; [vm_compute; reflexivity|].
  split; [vm_compute; reflexivity|]. split; [exact valid_order_ten_digits|].
  exists 10. split; [vm_compute; reflexivity|lia].
Qed.

Lemma provider_failure_rejects_order_witness :
  acceptable_order valid_order /\
  fst (handleCreateOrder (provider_refusing 0) valid_order sample_env initial_world)
  = Rejected "Razorpay order creation failed".
Proof.
  split; [exact valid_order_acceptable|].
  exact (proj1 (proj2 (provider_failure_rejects_order (provider_refusing 0)
                         valid_order sample_env initial_world
                         valid_order_acceptable)) eq_refl).
Defined.

Lemma create_order_store_unchanged (o : oracle) (request : request)
    (env : bindings) (w : world) :
  store (snd (handleCreateOrder o request env w)) = store w /\
  txn (snd (handleCreateOrder o request env w)) = txn w.
Proof.
  rewrite create_order_cascade. cbn zeta.
  destruct (js_not (prop (parsed_body request) "name") || _ || _);
    [split; reflexivity|].
  destruct (negb (test_mobile _)); [split; reflexivity|].
  destruct (js_not (prop (parsed_body request) "amount") || _ || _);
    [split; reflexivity|].
  unfold_js. cbn beta iota zeta. destruct (provider o); split; reflexivity.
Qed.

(** X13.  [create-order] neither reads nor writes the store.  For every
    request and every behaviour of the collaborators the tables and the
    transaction state are those before and no statement is sent; the answer
    is the same in any two worlds (in particular the amount is not compared
    with the quote).  The provider is called exactly when the fields pass the
    three tests, and then once. *)
Theorem create_order_leaves_store_alone
    (o : oracle) (request : request) (env : bindings) (w w2 : world) :
  let res := handleCreateOrder o request env w in
  store (snd res) = store w /\
  txn (snd res) = txn w /\
  fst res = fst (handleCreateOrder o request env w2) /\
  (acceptable_order request ->
   exists sent, trace (snd res) = trace w ++ [ProviderCall sent]) /\
  (~ acceptable_order request -> trace (snd res) = trace w).
Proof.
  cbn zeta.
  assert (acceptable_order request \/ ~ acceptable_order request) as [Hok|Hbad].
  { rewrite acceptable_order_tests.
    destruct (js_not (prop (parsed_body request) "name") || _ || _);
      [right; intros (H & _); discriminate|].
    destruct (negb (test_mobile _)); [right; intros (_ & H & _); discriminate|].
    destruct (js_not (prop (parsed_body request) "amount") || _ || _);
      [right; intros (_ & _ & H); discriminate|].
    left. auto. }
  - rewrite !create_order_accepted by exact Hok. cbn zeta.
    destruct (provider o); cbn; repeat split; try reflexivity; eauto;
      intros Hbad; destruct (Hbad Hok).
  - rewrite acceptable_order_tests in Hbad.
    rewrite !create_order_cascade. cbn zeta.
    destruct (js_not (prop (parsed_body request) "name") || _ || _) eqn:E1;
      [cbn; repeat split; try reflexivity; intros H;
       apply acceptable_order_tests in H; destruct H as (H1 & H2 & H3); congruence|].
    destruct (negb (test_mobile _)) eqn:E2;
      [cbn; repeat split; try reflexivity; intros H;
       apply acceptable_order_tests in H; destruct H as (H1 & H2 & H3); congruence|].
    destruct (js_not (prop (parsed_body request) "amount") || _ || _) eqn:E3;
      [cbn; repeat split; try reflexivity; intros H;
       apply acceptable_order_tests in H; destruct H as (H1 & H2 & H3); congruence|].
    exfalso. apply Hbad. auto.
Qed.

(** ** The quote, in every case *)

Lemma next_amount_cases (db : oracle) (w : world) :
  handleNextAmount db w
  = (match select_fails db with
     | Some message => Rejected message
     | None =>
         Fulfilled
           (jsonResponse
              [("nextAmount", JNum ((default 0 (counter (store w) !! 1) + 1) * 10))]
              200)
     end,
     logged w (Sql SELECT_counter)).
Proof.
  unfold_js. unfold logged. cbn beta iota zeta.
  destruct (select_fails db); [reflexivity|]. cbn.
  destruct (counter (store w) !! 1); reflexivity.
Qed.

(** X14.  [GET /api/next-amount] is read-only in every case: it sends one
    [SELECT] and nothing else, and leaves the tables and the transaction
    state as they are, also when the store fails the query, in which case
    the promise of the handler is rejected with the store's message.  A
    quote reserves nothing: asking again right away gives the same answer. *)
Theorem next_amount_is_read_only (db : oracle) (w : world) :
  let res := handleNextAmount db w in
  store (snd res) = store w /\
  txn (snd res) = txn w /\
  trace (snd res) = trace w ++ [Sql SELECT_counter] /\
  (forall m, select_fails db = Some m -> fst res = Rejected m) /\
  fst (handleNextAmount db (snd res)) = fst res.
Proof.
  cbn zeta. rewrite !next_amount_cases. cbn.
  repeat split; try reflexivity. intros m ->. reflexivity.
Qed.

(** ** Routing *)

Lemma handlers_ignore_method (o : oracle) (request : request) (env : bindings)
    (w : world) (m : string) :
  handleCreateOrder o (with_method m request) env w
  = handleCreateOrder o request env w /\
  handleVerifyPayment o (with_method m request) env w
  = handleVerifyPayment o request env w.
Proof. split; reflexivity. Qed.

(** X15.  The worker routes on the path alone.  Apart from [OPTIONS], the
    method of a request is never looked at: the same path and body sent with
    any two methods other than [OPTIONS] get the same answer and have the
    same effects (a [GET] to [/api/verify-payment] records a payment like a
    [POST]). *)
Theorem routing_ignores_method
    (o : oracle) (request : request) (env : bindings) (w : world) (m : string) :
  method request <> "OPTIONS" ->
  m <> "OPTIONS" ->
  fetch o (with_method m request) env w = fetch o request env w.
Proof.
  intros Hreq Hm. rewrite !fetch_returns_handler_promise.
  apply String.eqb_neq in Hreq, Hm.
  cbn [method pathname with_method]. rewrite Hreq, Hm.
  destruct (handlers_ignore_method o request env w m) as [-> ->].
  reflexivity.
Qed.

Lemma post_is_not_options :
  method (sample_verification good_signature) <> "OPTIONS".
Proof. discriminate. Qed.

Lemma get_is_not_options : "GET" <> "OPTIONS".
Proof. discriminate. Qed.

Lemma routing_ignores_method_witness :
  method (sample_verification good_signature) <> "OPTIONS" /\
  "GET" <> "OPTIONS" /\
  fetch (healthy JNull 0) (with_method "GET" (sample_verification good_signature))
    sample_env initial_world
  = fetch (healthy JNull 0) (sample_verification good_signature) sample_env
      initial_world.
Proof.
  split; [exact post_is_not_options|]. split; [exact get_is_not_options|].
  exact (routing_ignores_method (healthy JNull 0)
           (sample_verification good_signature) sample_env initial_world "GET"
           post_is_not_options get_is_not_options).
Defined.

Lemma verify_fulfilled_shape (o : oracle) (request : request) (env : bindings)
    (w : world) (r : response) :
  fst (handleVerifyPayment o request env w) = Fulfilled r ->
  r = invalid_signature_response \/
  (exists m, r = storage_error_response m) \/
  (exists n, r = success_response n).
Proof.
  destruct (decide (signature_valid request env)) as [Hv|Hn].
  2:{ rewrite verify_invalid by exact Hn. intros [= <-]. auto. }
  rewrite verify_cascade by exact Hv. cbn zeta. oracle_fields o.
  destruct fb; [discriminate|].
  destruct fu; [destruct fr; [discriminate|intros [= <-]; eauto]|].
  destruct fs; [destruct fr; [discriminate|intros [= <-]; eauto]|].
  destruct (counter (store w) !! 1);
    [|destruct fr; [discriminate|intros [= <-]; eauto]].
  destruct fi; [destruct fr; [discriminate|intros [= <-]; eauto]|].
  destruct fc; [destruct fr; [discriminate|intros [= <-]; eauto]|].
  intros [= <-]. eauto.
Qed.

Lemma create_fulfilled_shape (o : oracle) (request : request) (env : bindings)
    (w : world) (r : response) :
  fst (handleCreateOrder o request env w) = Fulfilled r ->
  exists data, r = jsonResponse data 400 \/ r = jsonResponse data 200.
Proof.
  rewrite create_order_cascade. cbn zeta.
  destruct (js_not (prop (parsed_body request) "name") || _ || _);
    [intros [= <-]; eauto|].
  destruct (negb (test_mobile _)); [intros [= <-]; eauto|].
  destruct (js_not (prop (parsed_body request) "amount") || _ || _);
    [intros [= <-]; eauto|].
  unfold_js. cbn beta iota zeta.
  destruct (provider o); try discriminate. intros [= <-]. eauto.
Qed.

(** X16.  Whenever the promise of [fetch] is fulfilled, the response carries
    the three CORS headers, and its status is 200, 400, 404 or 500.  It is
    404 only for a path that is none of the three routes, and 500 only on
    [/api/verify-payment], with the storage error
    ["Database error: ..."]: the 500 with the bare message that the [catch]
    of [fetch] would build is never sent. *)
Theorem fulfilled_responses_shape
    (o : oracle) (request : request) (env : bindings) (w w' : world)
    (r : response) :
  fetch o request env w = (Fulfilled r, w') ->
  (forall h, h ∈ CORS_HEADERS -> h ∈ headers r) /\
  (status r = 200 \/ status r = 400 \/ status r = 404 \/ status r = 500) /\
  (status r = 404 -> ~ routed (pathname request)) /\
  (status r = 500 ->
   pathname request = "/api/verify-payment" /\
   exists m, r = jsonResponse [("error", JStr ("Database error: " +:+ m))] 500).
Proof.
  rewrite fetch_returns_handler_promise. unfold routed.
  destruct (String.eqb (method request) "OPTIONS").
  { intros [= <- <-]. cbn. split; [auto|]. split; [auto|].
    split; intros; discriminate. }
  destruct (String.eqb_spec (pathname request) "/api/next-amount") as [Hp|Hp1].
  { rewrite next_amount_cases. destruct (select_fails o); [discriminate|].
    intros [= <- <-]. cbn. split; [intros h Hh; right; exact Hh|].
    split; [auto|]. split; intros; discriminate. }
  destruct (String.eqb_spec (pathname request) "/api/create-order") as [Hp|Hp2].
  { intros Hres. apply (f_equal fst) in Hres. cbn [fst] in Hres.
    apply create_fulfilled_shape in Hres. destruct Hres as (data & [-> | ->]);
      cbn; (split; [intros h Hh; right; exact Hh|]); (split; [auto|]);
      split; intros; discriminate. }
  destruct (String.eqb_spec (pathname request) "/api/verify-payment") as [Hp|Hp3].
  { intros Hres. apply (f_equal fst) in Hres. cbn [fst] in Hres.
    apply verify_fulfilled_shape in Hres.
    destruct Hres as [-> | [(m & ->) | (n & ->)]];
      cbn; (split; [intros h Hh; right; exact Hh|]); (split; [auto|]);
      (split; [intros; discriminate|]); intros H; try discriminate.
    split; [exact Hp|]. exists m. reflexivity. }
  intros [= <- <-]. cbn. split; [intros h Hh; right; exact Hh|].
  split; [auto|]. split; [|intros; discriminate].
  intros _ [H|[H|H]]; congruence.
Qed.

Lemma fulfilled_responses_shape_witness :
  fetch insert_failing_oracle_sample (sample_verification good_signature)
    sample_env initial_world
  = (Fulfilled (storage_error_response "D1_ERROR: disk I/O error"),
     snd (fetch insert_failing_oracle_sample (sample_verification good_signature)
            sample_env initial_world)) /\
  (forall h, h ∈ CORS_HEADERS ->
     h ∈ headers (storage_error_response "D1_ERROR: disk I/O error")) /\
  status (storage_error_response "D1_ERROR: disk I/O error") = 500.
Proof.
  assert (fetch insert_failing_oracle_sample (sample_verification good_signature)
            sample_env initial_world
          = (Fulfilled (storage_error_response "D1_ERROR: disk I/O error"),
             snd (fetch insert_failing_oracle_sample
                    (sample_verification good_signature) sample_env initial_world)))
    as Hres by (vm_compute; reflexivity).
  split; [exact Hres|].
  destruct (fulfilled_responses_shape insert_failing_oracle_sample
              (sample_verification good_signature) sample_env initial_world _ _ Hres)
    as (Hcors & _).
  split; [exact Hcors|reflexivity].
Defined.

(** X17.  Only [/api/verify-payment] can change the tables: for an
    [OPTIONS] request and for every other path, whatever the body and
    whatever the collaborators do, the tables and the transaction state
    after [fetch] are those before. *)
Theorem only_verification_changes_tables
    (o : oracle) (request : request) (env : bindings) (w : world) :
  method request = "OPTIONS" \/ pathname request <> "/api/verify-payment" ->
  store (snd (fetch o request env w)) = store w /\
  txn (snd (fetch o request env w)) = txn w.
Proof.
  intros Hroute. rewrite fetch_returns_handler_promise.
  destruct (String.eqb_spec (method request) "OPTIONS") as [Hm|Hm];
    [split; reflexivity|].
  destruct Hroute as [Hm'|Hpath]; [congruence|].
  destruct (String.eqb (pathname request) "/api/next-amount").
  { rewrite next_amount_cases. split; reflexivity. }
  destruct (String.eqb (pathname request) "/api/create-order").
  { destruct (create_order_store_unchanged o request env w) as [Hs Ht].
    split; assumption. }
  apply String.eqb_neq in Hpath. rewrite Hpath. split; reflexivity.
Qed.

Lemma valid_order_path : pathname valid_order <> "/api/verify-payment".
Proof. discriminate. Qed.

Lemma only_verification_changes_tables_witness :
  pathname valid_order <> "/api/verify-payment" /\
  store (snd (fetch (healthy (JStr "order_9") 0) valid_order sample_env
                initial_world)) = initial_tables /\
  txn (snd (fetch (healthy (JStr "order_9") 0) valid_order sample_env
              initial_world)) = None.
Proof.
  split; [exact valid_order_path|].
  exact (only_verification_changes_tables (healthy (JStr "order_9") 0) valid_order
           sample_env initial_world (or_intror valid_order_path)).
Defined.

(** ** A mobile sent as a number *)

Lemma digit_char_table :
  forallb (fun d => is_digit (digit_char d)) (seqZ 0 10) = true.
Proof. vm_compute. reflexivity. Qed.

Lemma digit_char_decimal (d : Z) : 0 <= d < 10 -> decimal_digit (digit_char d).
Proof.
  intros Hd. apply is_digit_spec.
  pose proof digit_char_table as Htab. rewrite forallb_forall in Htab.
  apply Htab, list_elem_of_In, elem_of_seqZ. lia.
Qed.

Lemma digits_keep_acc (fuel : nat) (n : Z) (acc : string) :
  (String.length acc <= String.length (digits fuel 10 n acc))%nat.
Proof.
  revert n acc. induction fuel as [|fuel IH]; intros n acc; cbn; [lia|].
  destruct (n / 10 =? 0); cbn; [lia|].
  etransitivity; [|apply IH]. cbn. lia.
Qed.

(** A number below [10^k] has at most [k] digits. *)
Lemma digits_length_le (fuel k : nat) (n : Z) (acc : string) :
  (1 <= k)%nat -> 0 <= n < 10 ^ Z.of_nat k ->
  (String.length (digits fuel 10 n acc) <= k + String.length acc)%nat.
Proof.
  revert k n acc. induction fuel as [|fuel IH]; intros k n acc Hk Hn; cbn; [lia|].
  destruct (Z.eqb_spec (n / 10) 0) as [Hq|Hq]; cbn; [lia|].
  assert (10 <= n) as Hten.
  { destruct (Z_lt_le_dec n 10) as [Hlt|Hge]; [|exact Hge].
    exfalso. apply Hq. apply Z.div_small. lia. }
  destruct k as [|[|k]]; [lia| cbn in Hn; lia |].
  specialize (IH (S k) (n / 10) (String (digit_char (n mod 10)) acc)
                ltac:(lia)).
  etransitivity; [apply IH|cbn; lia].
  split; [apply Z.div_pos; lia|].
  apply Z.div_lt_upper_bound; [lia|].
  replace (Z.of_nat (S (S k))) with (1 + Z.of_nat (S k)) in Hn by lia.
  rewrite Z.pow_add_r in Hn by lia. lia.
Qed.

(** A number from [10^k] on has more than [k] digits, given the fuel. *)
Lemma digits_length_ge (fuel k : nat) (n : Z) (acc : string) :
  (k < fuel)%nat -> 10 ^ Z.of_nat k <= n ->
  (k + 1 + String.length acc <= String.length (digits fuel 10 n acc))%nat.
Proof.
  revert k n acc. induction fuel as [|fuel IH]; intros k n acc Hk Hn; [lia|].
  cbn [digits].
  destruct k as [|k].
  { destruct (n / 10 =? 0); [cbn; lia|].
    etransitivity; [|apply digits_keep_acc]. cbn. lia. }
  replace (Z.of_nat (S k)) with (1 + Z.of_nat k) in Hn by lia.
  rewrite Z.pow_add_r in Hn by lia.
  assert (0 < 10 ^ Z.of_nat k) as Hpos by (apply Z.pow_pos_nonneg; lia).
  assert (10 ^ Z.of_nat k <= n / 10) as Hq.
  { apply Z.div_le_lower_bound; lia. }
  destruct (Z.eqb_spec (n / 10) 0) as [Hz|Hz]; [lia|].
  specialize (IH k (n / 10) (String (digit_char (n mod 10)) acc) ltac:(lia) Hq).
  cbn in IH. lia.
Qed.

Lemma digits_all_decimal (fuel : nat) (n : Z) (acc : string) :
  Forall decimal_digit (list_ascii_of_string acc) ->
  Forall decimal_digit (list_ascii_of_string (digits fuel 10 n acc)).
Proof.
  revert n acc. induction fuel as [|fuel IH]; intros n acc Hacc; cbn; [exact Hacc|].
  assert (Forall decimal_digit
            (list_ascii_of_string (String (digit_char (n mod 10)) acc))) as Hacc'.
  { cbn. constructor; [|exact Hacc]. apply digit_char_decimal.
    apply Z.mod_pos_bound. lia. }
  destruct (n / 10 =? 0); [exact Hacc'|]. apply IH, Hacc'.
Qed.

Lemma log2_fuel (k : nat) (n : Z) :
  (k <= 40)%nat -> 10 ^ Z.of_nat k <= n ->
  (k < S (Z.to_nat (Z.log2 n)))%nat.
Proof.
  intros Hk Hn.
  assert (2 ^ Z.of_nat k <= n) as H2.
  { etransitivity; [|exact Hn]. apply Z.pow_le_mono_l. lia. }
  assert (Z.of_nat k <= Z.log2 n).
  { apply Z.log2_le_pow2; [|exact H2].
    assert (0 < 2 ^ Z.of_nat k) by (apply Z.pow_pos_nonneg; lia). lia. }
  lia.
Qed.

(** X18.  The test of the mobile converts its argument to text.  A mobile
    sent as a JSON number therefore passes exactly when the number lies
    between 1000000000 and 9999999999: its decimal text then has ten digits.
    A negative number, a shorter or a longer one fails (a mobile with a
    leading zero cannot be sent as a number). *)
Theorem numeric_mobile_passes_iff_ten_digits (n : Z) :
  test_mobile (JNum n) = true <-> 1000000000 <= n <= 9999999999.
Proof.
  rewrite test_mobile_spec. unfold ten_decimal_digits. cbn [to_string].
  unfold number_toString. split.
  - intros [Hlen Hall].
    destruct (Z.ltb_spec n 0) as [Hneg|Hpos].
    { cbn in Hall. apply Forall_cons in Hall. destruct Hall as [Hminus _].
      unfold decimal_digit in Hminus. vm_compute in Hminus.
      destruct Hminus as [H _]. exfalso. apply H. reflexivity. }
    destruct (Z_lt_le_dec n 1000000000) as [Hlt|Hge].
    { pose proof (digits_length_le (S (Z.to_nat (Z.log2 n))) 9 n ""
                    ltac:(lia) ltac:(split; [lia|exact Hlt])) as Hle.
      cbn [String.length] in Hle. lia. }
    destruct (Z_lt_le_dec n 10000000000) as [Hlt|Hge']; [lia|].
    pose proof (digits_length_ge (S (Z.to_nat (Z.log2 n))) 10 n ""
                  (log2_fuel 10 n ltac:(lia) Hge') Hge') as Hge10.
    cbn [String.length] in Hge10. lia.
  - intros [Hlo Hhi].
    destruct (Z.ltb_spec n 0) as [Hneg|Hpos]; [lia|].
    split; [|apply digits_all_decimal; constructor].
    pose proof (digits_length_le (S (Z.to_nat (Z.log2 n))) 10 n ""
                  ltac:(lia) ltac:(split; [lia|change (10 ^ Z.of_nat 10) with 10000000000; lia]))
      as Hle.
    pose proof (digits_length_ge (S (Z.to_nat (Z.log2 n))) 9 n ""
                  (log2_fuel 9 n ltac:(lia) Hlo) Hlo) as Hge.
    cbn [String.length] in Hle, Hge. lia.
Qed.

(** ** The schema script *)

Lemma insert_or_ignore_lookup (id total_orders : Z) (rows : gmap Z Z) (k : Z) :
  insert_or_ignore id total_orders rows !! k
  = match rows !! k with
    | Some v => Some v
    | None => if decide (k = id) then Some total_orders else None
    end.
Proof.
  unfold insert_or_ignore.
  destruct (rows !! id) as [v|] eqn:Hid.
  - destruct (rows !! k) as [v'|] eqn:Hk; [reflexivity|].
    case_decide; [congruence|reflexivity].
  - destruct (decide (k = id)) as [->|Hne].
    + rewrite lookup_insert_eq, Hid. reflexivity.
    + rewrite lookup_insert_ne by congruence. destruct (rows !! k); reflexivity.
Qed.

(** X19.  After the schema script, whatever the database was, both tables
    exist and the counter table has a row with [id = 1], so that the quote
    never falls back on its default and a verification never reads a missing
    row.  On a database without tables the script leaves exactly the initial
    state: no record and the single counter row [(1, 0)]. *)
Theorem schema_gives_counter_row (db : database) :
  exists t,
    opened (schema db) = Some t /\
    (exists T, counter t !! 1 = Some T) /\
    (payments_table db = None -> payments t = []) /\
    (counter_table db = None -> counter t = {[ 1 := 0 ]}) /\
    (db = empty_database -> t = initial_tables).
Proof.
  destruct db as [[p|] [c|]]; cbn; eexists; (split; [reflexivity|]); cbn.
  all: split;
    [ rewrite ?insert_or_ignore_lookup; try destruct (c !! 1); eauto | ].
  all: repeat split; try discriminate; try reflexivity.
Qed.

(** X20.  Running the schema script again loses nothing: every record and
    every counter row of the database is kept with its value (the counter is
    not reset to 0), and running the script twice is the same as running it
    once. *)
Theorem schema_keeps_what_exists (db : database) :
  (forall p, payments_table db = Some p -> payments_table (schema db) = Some p) /\
  (forall c id total_orders,
     counter_table db = Some c -> c !! id = Some total_orders ->
     exists c', counter_table (schema db) = Some c' /\ c' !! id = Some total_orders) /\
  (forall t T, opened db = Some t -> counter t !! 1 = Some T ->
     opened (schema db) = Some t) /\
  schema (schema db) = schema db.
Proof.
  split; [|split; [|split]].
  - intros p Hp. cbn. rewrite Hp. reflexivity.
  - intros c id total Hc Hid. cbn. rewrite Hc. cbn. eexists. split; [reflexivity|].
    rewrite insert_or_ignore_lookup, Hid. reflexivity.
  - intros t T. unfold opened, schema.
    destruct (payments_table db) as [p|]; [|discriminate].
    destruct (counter_table db) as [c|]; [|discriminate].
    intros [= <-]. cbn. intros HT. unfold insert_or_ignore. rewrite HT. reflexivity.
  - unfold schema. cbn.
    destruct (payments_table db), (counter_table db) as [c|]; cbn; f_equal; f_equal.
    all: unfold insert_or_ignore at 1;
      rewrite insert_or_ignore_lookup; try destruct (c !! 1); reflexivity.
Qed.

(** ** The development entry point *)

Lemma drainBody_transparent : transparent drainBody.
Proof.
  intros request env next w.
  unfold drainBody, async, try_finally, await, call, bind, await_promise,
    drain_unused_body, ret, throw.
  destruct (next request env w) as [[r|e] w']; reflexivity.
Qed.

Lemma jsonError_cases (d : error_details) (request : request) (env : bindings)
    (next : handler) (w : world) :
  jsonError d request env next w
  = match next request env w with
    | (Fulfilled r, w') => (Fulfilled r, w')
    | (Rejected e, w') =>
        (Fulfilled (Response_json (reduceError d e) 500
                      [("MF-Experimental-Error-Stack", "true")]), w')
    end.
Proof.
  unfold jsonError, async, try_catch, await, call, bind, await_promise, ret, throw.
  destruct (next request env w) as [[r|e] w']; reflexivity.
Qed.

(** X21.  The entry point of the development bundle wraps the worker's
    [fetch] in [drainBody] and [jsonError], which await it inside their
    [try].  A response of the worker goes through unchanged; a rejected
    promise of the worker is caught and answered with status 500 and a JSON
    body whose [message] is the message of the error, together with its name
    and stack.  So the wrapped entry point never rejects, and it has the
    effects of the worker's [fetch] and no other. *)
Theorem development_entry_catches_rejections
    (d : error_details) (o : oracle) (request : request) (env : bindings)
    (w : world) :
  let inner := fetch o request env w in
  let outer := WRAPPED_ENTRY d o request env w in
  snd outer = snd inner /\
  (forall r, fst inner = Fulfilled r -> fst outer = Fulfilled r) /\
  (forall e, fst inner = Rejected e ->
     fst outer
     = Fulfilled
         {| status := 500;
            headers := [("MF-Experimental-Error-Stack", "true");
                        ("Content-Type", "application/json")];
            body := Some [("name", name_of d e); ("message", JStr e);
                          ("stack", stack_of d e); ("cause", JUndefined)] |}) /\
  (forall e, fst outer <> Rejected e).
Proof.
  cbn zeta.
  unfold WRAPPED_ENTRY, wrapExportedHandler, INTERNAL_WRANGLER_MIDDLEWARE,
    facade_invoke.
  cbn [app facade_invokeChain].
  rewrite drainBody_transparent, jsonError_cases.
  unfold fetchDispatcher.
  destruct (fetch o request env w) as [[r|e] w']; cbn [fst snd].
  - split; [reflexivity|]. split; [auto|]. split; [discriminate|discriminate].
  - split; [reflexivity|]. split; [discriminate|].
    split; [intros e' [= <-]; reflexivity|discriminate].
Qed.

(** ** The check of outbound URLs *)

Lemma checkURL_console (u : url) (urls : gset string) (console : list string) :
  exists new_urls new,
    checkURL u (urls, console) = (new_urls, console ++ new) /\
    urls ⊆ new_urls /\
    (new = [] \/
     (new = [custom_port_warning u] /\ (href u ∉ urls) /\ (href u ∈ new_urls) /\
      port u <> "" /\ port u <> "443" /\ protocol u = "https:")).
Proof.
  unfold checkURL.
  destruct (String.eqb_spec (port u) "") as [Hp|Hp]; cbn [negb andb].
  { exists urls, []. rewrite app_nil_r. auto. }
  destruct (String.eqb_spec (port u) "443") as [Hq|Hq]; cbn [negb andb].
  { exists urls, []. rewrite app_nil_r. auto. }
  destruct (String.eqb_spec (protocol u) "https:") as [Hs|Hs].
  2:{ exists urls, []. rewrite app_nil_r. auto. }
  destruct (decide (href u ∈ urls)) as [Hin|Hnew].
  { exists urls, []. rewrite app_nil_r. auto. }
  exists ({[ href u ]} ∪ urls), [custom_port_warning u].
  split; [reflexivity|]. split; [set_solver|]. right.
  repeat split; try assumption. set_solver.
Qed.

(** X22.  [checkURL] warns at most once per URL: after a URL has been
    checked, checking it again, also after any number of other requests,
    changes nothing and writes nothing to the console.  A URL with the
    default port, the port 443 or another scheme is never warned about; in
    particular the provider's endpoint [https://api.razorpay.com/v1/orders]
    goes through silently. *)
Theorem checkURL_warns_once
    (u : url) (others : list url) (state : gset string * list string) :
  let later := checkURLs others (checkURL u state) in
  checkURL u later = later /\
  (port u = "" \/ port u = "443" \/ protocol u <> "https:" ->
   checkURL u state = state) /\
  (port u <> "" -> port u <> "443" -> protocol u = "https:" ->
   href u ∉ fst state ->
   checkURL u state
   = ({[ href u ]} ∪ fst state, snd state ++ [custom_port_warning u])) /\
  checkURL razorpay_orders_url state = state.
Proof.
  cbn zeta.
  assert (forall us st, fst st ⊆ fst (checkURLs us st)) as Hgrow.
  { induction us as [|v us IH]; intros [urls console]; [reflexivity|].
    cbn [checkURLs fold_left]. etransitivity; [|apply IH].
    destruct (checkURL_console v urls console) as (nu & new & -> & Hsub & _).
    exact Hsub. }
  split; [|split; [|split]].
  - destruct state as [urls console].
    destruct (checkURLs others (checkURL u (urls, console))) as [urls' console'] eqn:Hl.
    pose proof (Hgrow others (checkURL u (urls, console))) as Hsub.
    rewrite Hl in Hsub. cbn [fst] in Hsub.
    unfold checkURL in *.
    destruct (negb _ && negb _ && _); [|reflexivity].
    destruct (decide (href u ∈ urls')) as [|Hout]; [reflexivity|].
    exfalso. apply Hout, Hsub.
    destruct (decide (href u ∈ urls)); cbn [fst]; set_solver.
  - destruct state as [urls console]. unfold checkURL.
    intros [Hp|[Hp|Hp]].
    + rewrite Hp. reflexivity.
    + rewrite Hp. reflexivity.
    + apply String.eqb_neq in Hp. rewrite Hp, andb_false_r. reflexivity.
  - destruct state as [urls console]. cbn [fst snd]. intros Hp Hq Hs Hnew.
    unfold checkURL. apply String.eqb_neq in Hp, Hq. rewrite Hp, Hq, Hs.
    cbn. destruct (decide (href u ∈ urls)); [contradiction|reflexivity].
  - destruct state as [urls console]. reflexivity.
Qed.


(** ** Quotes and order numbers *)

(** X23.  The quote never goes down.  In the course of any sequence of
    verification requests served from the initial store, whatever their
    signatures and whatever the store fails (a [ROLLBACK] included), the
    amount quoted at a later point is at least the amount quoted at an
    earlier one; every quote is a positive multiple of 10. *)
Theorem quotes_never_decrease
    (db : oracle) (env : bindings) (before after : list verification) :
  select_fails db = None ->
  exists earlier later : Z,
    fst (handleNextAmount db (snd (serve env before initial_world)))
    = Fulfilled (jsonResponse [("nextAmount", JNum earlier)] 200) /\
    fst (handleNextAmount db (snd (serve env (before ++ after) initial_world)))
    = Fulfilled (jsonResponse [("nextAmount", JNum later)] 200) /\
    10 <= earlier <= later /\
    earlier mod 10 = 0 /\ later mod 10 = 0.
Proof.
  intros Hs. rewrite serve_app. cbn [snd]. rewrite !next_amount_cases, Hs.
  cbn [fst].
  destruct (serve_increasing env before initial_world 0 initial_increasing)
    as (T1 & Hinv1 & HT1 & _).
  destruct (serve_increasing env after (snd (serve env before initial_world)) T1 Hinv1)
    as (T2 & Hinv2 & HT2 & _).
  destruct Hinv1 as (Hc1 & _). destruct Hinv2 as (Hc2 & _).
  rewrite Hc1, Hc2. cbn [default].
  exists ((T1 + 1) * 10), ((T2 + 1) * 10).
  split; [reflexivity|]. split; [reflexivity|].
  split; [lia|]. split; apply Z.mod_mul; lia.
Qed.

Lemma quotes_never_decrease_witness :
  select_fails (healthy JNull 0) = None /\
  exists earlier later : Z,
    fst (handleNextAmount (healthy JNull 0)
           (snd (serve sample_env [good_call] initial_world)))
    = Fulfilled (jsonResponse [("nextAmount", JNum earlier)] 200) /\
    fst (handleNextAmount (healthy JNull 0)
           (snd (serve sample_env ([good_call] ++ [tampered_call; good_call])
                   initial_world)))
    = Fulfilled (jsonResponse [("nextAmount", JNum later)] 200) /\
    10 <= earlier <= later.
Proof.
  split; [reflexivity|].
  destruct (quotes_never_decrease (healthy JNull 0) sample_env [good_call]
              [tampered_call; good_call] eq_refl)
    as (earlier & later & H1 & H2 & Hle & _).
  exists earlier, later. auto.
Defined.

(** X24.  The quote is the price of the next order number: when a quote is
    asked in some world and a verification is then committed from that same
    world, the amount quoted is ten times the order number the verification
    returns (the k-th recorded payment is the one that was quoted
    [k * 10]). *)
Theorem quote_is_ten_times_next_order_number
    (db o : oracle) (request : request) (env : bindings) (w : world) (T : Z) :
  select_fails db = None ->
  signature_valid request env ->
  storage_succeeds o ->
  counter (store w) !! 1 = Some T ->
  exists orderNumber : Z,
    fst (handleVerifyPayment o request env (snd (handleNextAmount db w)))
    = Fulfilled (jsonResponse [("status", JStr "success");
                               ("orderNumber", JNum orderNumber)] 200) /\
    fst (handleNextAmount db w)
    = Fulfilled (jsonResponse [("nextAmount", JNum (orderNumber * 10))] 200).
Proof.
  intros Hsel Hv Hs HT. exists (T + 1).
  rewrite next_amount_cases, Hsel. cbn [fst snd].
  rewrite (verify_commit o request env (logged w (Sql SELECT_counter)) T Hv Hs HT).
  rewrite HT. split; reflexivity.
Qed.

Lemma quote_is_ten_times_next_order_number_witness :
  select_fails (healthy JNull 0) = None /\
  signature_valid (sample_verification good_signature) sample_env /\
  storage_succeeds (healthy JNull 0) /\
  counter (store initial_world) !! 1 = Some 0 /\
  exists orderNumber : Z,
    fst (handleVerifyPayment (healthy JNull 0) (sample_verification good_signature)
           sample_env (snd (handleNextAmount (healthy JNull 0) initial_world)))
    = Fulfilled (jsonResponse [("status", JStr "success");
                               ("orderNumber", JNum orderNumber)] 200) /\
    fst (handleNextAmount (healthy JNull 0) initial_world)
    = Fulfilled (jsonResponse [("nextAmount", JNum (orderNumber * 10))] 200).
Proof.
  split; [reflexivity|]. split; [exact good_signature_valid|].
  split; [apply healthy_succeeds|]. split; [reflexivity|].
  exact (quote_is_ten_times_next_order_number (healthy JNull 0) (healthy JNull 0)
           (sample_verification good_signature) sample_env initial_world 0
           eq_refl good_signature_valid (healthy_succeeds JNull 0) eq_refl).
Defined.
